(** * LiteLLM router types, Fireworks AI adapter and debug endpoint

    A shallow embedding of
    - [litellm/types/router.py] (router configuration records, routing
      strategies, cache-key templates, router errors),
    - [litellm/llms/fireworks_ai/chat/transformation.py] (request and
      response transformation of the Fireworks AI adapter),
    - [litellm/proxy/common_utils/debug_utils.py] (the asyncio task
      statistics endpoint),
    followed by the properties proved about them. *)

From Corelib Require Import PrimFloat.
From Stdlib Require Import ZArith Ascii DecimalString DecimalPos DecimalZ.
From stdpp Require Import gmap strings list fin_maps.

(** ** Python strings *)

Module PyStr.

(** [s.startswith(p)]. *)
Definition startswith (s p : string) : bool := String.prefix p s.

(** [needle in haystack] for strings, as a proposition. *)
Definition contains (haystack needle : string) : Prop :=
  ∃ pre post, haystack = pre +:+ needle +:+ post.

(** [str(b)] for a bool. *)
Definition str_bool (b : bool) : string := if b then "True" else "False".

(** [str(n)] for an int: decimal digits, a leading minus sign when negative. *)
Definition str_int (n : Z) : string := NilZero.string_of_int (Z.to_int n).

(** [template.format] with keyword arguments [kwargs], for templates made of
    literal text and plain named replacement fields [{name}].  The scanner
    is either in literal text ([field = None]) or inside a replacement field
    whose name read so far is [n] ([field = Some n]).  A field that names no keyword argument is a
    [KeyError], an unbalanced brace a [ValueError]: both are [None] here.
    Escaped braces, conversions and format specifications are outside this
    fragment and are rejected as well.  Substituted values are not scanned
    again. *)
Fixpoint format_from (kwargs : string → option string) (field : option string)
    (template : string) : option string :=
  match template, field with
  | EmptyString, None => Some EmptyString
  | EmptyString, Some _ => None
  | String c rest, None =>
      if Ascii.eqb c "{" then format_from kwargs (Some EmptyString) rest
      else if Ascii.eqb c "}" then None
      else String c <$> format_from kwargs None rest
  | String c rest, Some n =>
      if Ascii.eqb c "}" then
        v ← kwargs n; r ← format_from kwargs None rest; Some (v +:+ r)
      else if Ascii.eqb c "{" then None
      else format_from kwargs (Some (n +:+ String c EmptyString)) rest
  end.

Definition format (template : string) (kwargs : gmap string string) : option string :=
  format_from (λ k, kwargs !! k) None template.

End PyStr.

(** ** Python values and pydantic models *)

Module Py.

(** The values that configuration dictionaries and model attributes hold. *)
#[warnings="-register-all"]
Inductive value :=
  | VNone
  | VBool (b : bool)
  | VInt (n : Z)
  | VFloat (x : PrimFloat.float)
  | VStr (s : string)
  | VList (l : list value).

(** [v is None]. *)
Definition is_None (v : value) : bool :=
  match v with VNone => true | _ => false end.

(** [d.get(k)]: [None] when the key is missing. *)
Definition dict_get (d : gmap string value) (k : string) : value :=
  default VNone (d !! k).

(** Attribute access on a model instance: [getattr(o, k, dflt)] and
    [setattr(o, k, v)]; the custom [get], [__getitem__] and [__setitem__]
    methods of the router types are these. *)
Definition getattr (o : gmap string value) (k : string) (dflt : value) : value :=
  default dflt (o !! k).

Definition setattr (o : gmap string value) (k : string) (v : value) : gmap string value :=
  <[k := v]> o.

(** The annotations the router types use. *)
Inductive FieldType :=
  | TBool
  | TInt
  | TFloat
  | TStr
  | TDatetime
  | TDict
  | TLiteral (choices : list string)
  | TOptional (t : FieldType)
  | TList (t : FieldType)
  | TUnion (t1 t2 : FieldType).

(** [field_type == bool]. *)
Definition is_bool_type (t : FieldType) : bool :=
  match t with TBool => true | _ => false end.

(** A declared field: its name, annotation and default; a field without a
    default ([None] here) is required. *)
Record FieldInfo := Field {
  f_name : string;
  f_type : FieldType;
  f_default : option value;
}.

(** A [BaseModel] subclass: its declared fields in order, and whether
    [model_config] sets [extra] to allow (pydantic otherwise ignores keyword
    arguments that name no field). *)
Record ModelClass := {
  fields : list FieldInfo;
  extra_allow : bool;
}.

Definition field_names (cls : ModelClass) : list string := f_name <$> fields cls.

(** [get_type_hints(cls)]: the annotation of every declared field. *)
Definition get_type_hints (cls : ModelClass) : list (string * FieldType) :=
  (λ f, (f_name f, f_type f)) <$> fields cls.

(** pydantic's validation of one value against an annotation: the validated
    (possibly coerced) value, or [None] for a validation error.  The library
    is a collaborator of the code; what the proofs need of it is stated
    where they need it. *)
Class Pydantic := validate : FieldType → value → option value.

(** One field of [BaseModel.__init__]: a supplied value is validated, a
    missing one takes the default, a missing required one is an error. *)
Definition init_field `{Pydantic} (data : gmap string value) (f : FieldInfo) : option value :=
  match data !! f_name f with
  | Some v => validate (f_type f) v
  | None => f_default f
  end.

Fixpoint init_fields `{Pydantic} (data : gmap string value) (fs : list FieldInfo)
    : option (gmap string value) :=
  match fs with
  | [] => Some ∅
  | f :: fs =>
      v ← init_field data f;
      o ← init_fields data fs;
      Some (<[f_name f := v]> o)
  end.

(** [BaseModel.__init__] with the keyword arguments [data]: the instance as
    the map of its attributes.  Declared fields hold validated values; undeclared keywords are
    kept as they are when the class allows extras and dropped otherwise. *)
Definition BaseModel_init `{Pydantic} (cls : ModelClass) (data : gmap string value)
    : option (gmap string value) :=
  o ← init_fields data (fields cls);
  Some (if extra_allow cls then o ∪ data else o).

(** A validator that accepts exactly the values of the annotated type and
    coerces nothing, in the manner of pydantic's strict mode; the examples
    run with it. *)
Fixpoint strict_validate (t : FieldType) (v : value) : option value :=
  match t, v with
  | TBool, VBool _ | TInt, VInt _ | TFloat, VFloat _ | TStr, VStr _ => Some v
  | TLiteral choices, VStr s => if bool_decide (s ∈ choices) then Some v else None
  | TOptional _, VNone => Some VNone
  | TOptional t, _ => strict_validate t v
  | TList t, VList l => VList <$> mapM (strict_validate t) l
  | TUnion t1 t2, _ =>
      match strict_validate t1 v with
      | Some w => Some w
      | None => strict_validate t2 v
      end
  | _, _ => None
  end.

(** [str(uuid.uuid4())]: the string produced by the [n]-th draw from the
    random source.  Functions that draw thread the number of draws made. *)
Class Uuid4 := uuid4_str : nat → string.

(** A source that numbers its draws, for running examples. *)
Definition counting_uuid4 : Uuid4 := λ n, "uuid-" +:+ PyStr.str_int (Z.of_nat n).

End Py.

(** ** Fireworks AI adapter ([FireworksAIConfig]) *)

Module Fireworks.
Import Py.

(** *** [transform_request] *)

(** The first statement of [transform_request]: the model name the rest of
    the function works with. *)
Definition transform_request_model (model : string) : string :=
  if negb (PyStr.startswith model "accounts/")
  then "accounts/fireworks/models/" +:+ model
  else model.

Section Request.
(** Messages, parameter dictionaries and the request body are opaque here.
    [_transform_messages_helper] and [_transform_tools] rewrite message and
    tool dictionaries with helpers of other modules, and the parent class
    [OpenAIGPTConfig] builds the request body. *)
Context {Messages OptionalParams LitellmParams Headers Request : Type}.
Variable _transform_messages_helper : Messages → string → LitellmParams → Messages.
Variable _transform_tools_in : OptionalParams → OptionalParams.
Variable super_transform_request :
  string → Messages → OptionalParams → LitellmParams → Headers → Request.

Definition transform_request (model : string) (messages : Messages)
    (optional_params : OptionalParams) (litellm_params : LitellmParams)
    (headers : Headers) : Request :=
  let model := transform_request_model model in
  let messages := _transform_messages_helper messages model litellm_params in
  let optional_params := _transform_tools_in optional_params in
  super_transform_request model messages optional_params litellm_params headers.

End Request.

(** *** [transform_response] *)

(** [httpx.Response], as far as the adapter reads it. *)
Record Response := {
  text : string;
  status_code : Z;
  headers : gmap string string;
}.

(** The response types of [litellm.types.utils] with the attributes the
    adapter reads or writes; the others are carried along as a map. *)
Record Function := {
  fn_name : option string;
  fn_arguments : string;
}.

Record ChatCompletionMessageToolCall := {
  tc_function : Function;
  tc_id : string;
  tc_type : string;
}.

Record Message := {
  content : option string;
  tool_calls : option (list ChatCompletionMessageToolCall);
  message_attrs : gmap string value;
}.

Record Choices := {
  message : Message;
  choice_attrs : gmap string value;
}.

Record ModelResponse := {
  model : option string;
  choices : list Choices;
  _hidden_params : gmap string (gmap string string);
  response_attrs : gmap string value;
}.

(** A tool of the request: [tool["function"]["name"]], or [None] when that
    lookup raises. *)
Record ChatCompletionToolParam := {
  tool_function_name : option string;
}.

(** What [logging_obj.post_call] is called with. *)
Record PostCall {Messages RequestData : Type} := {
  pc_input : Messages;
  pc_api_key : option string;
  pc_original_response : string;
  pc_complete_input_dict : RequestData;
}.
Arguments PostCall : clear implicits.

(** The exceptions [transform_response] can end with: the adapter's own, or
    one raised by the code it calls. *)
Inductive Raised {E : Type} :=
  | FireworksAIException (message : string) (status_code : Z)
      (headers : option (gmap string string))
  | OtherException (e : E).
Arguments Raised : clear implicits.

(** What the adapter calls outside its module: the JSON decoder behind
    [raw_response.json()] (the parsed body, or the text of the exception),
    the [ModelResponse] and [Function] constructors, the header filter, and
    the constant of [litellm.constants]. *)
Class Collaborators := {
  Json : Type;
  Error : Type;
  response_json : string → string + Json;
  ModelResponse_init : Json → Error + ModelResponse;
  Function_of_json : string → option Function;
  get_response_headers : gmap string string → gmap string string;
  RESPONSE_FORMAT_TOOL_NAME : string;
}.

Section ResponseTransformation.
Context `{Collaborators, Uuid4}.
Context {Messages RequestData : Type}.

(** [_handle_message_content_with_tool_calls].  Anything raised inside the
    [try] leaves the message as it was. *)
Definition _handle_message_content_with_tool_calls (message : Message)
    (tool_calls : option (list ChatCompletionToolParam)) (draws : nat)
    : Message * nat :=
  match tool_calls, content message, Fireworks.tool_calls message with
  | Some tools, Some text, None =>
      match Function_of_json text with
      | None => (message, draws)
      | Some function =>
          if bool_decide (fn_name function ≠ Some RESPONSE_FORMAT_TOOL_NAME) then
            match mapM (M := option) tool_function_name tools with
            | None => (message, draws)
            | Some names =>
                if bool_decide (fn_name function ∈ (Some <$> names : list (option string))) then
                  let tool_call :=
                    {| tc_function := function; tc_id := uuid4_str draws;
                       tc_type := "function" |} in
                  ({| content := None; tool_calls := Some [tool_call];
                      message_attrs := message_attrs message |}, S draws)
                else (message, draws)
            end
          else (message, draws)
      end
  | _, _, _ => (message, draws)
  end.

(** The loop over [response.choices]. *)
Fixpoint handle_choices (cs : list Choices)
    (tool_calls : option (list ChatCompletionToolParam)) (draws : nat)
    : list Choices * nat :=
  match cs with
  | [] => ([], draws)
  | choice :: cs =>
      let '(m, draws) :=
        _handle_message_content_with_tool_calls (message choice) tool_calls draws in
      let '(cs, draws) := handle_choices cs tool_calls draws in
      ({| message := m; choice_attrs := choice_attrs choice |} :: cs, draws)
  end.

(** The state [transform_response] works on: the calls the logging object
    received and the identifiers drawn. *)
Record State := {
  post_calls : list (PostCall Messages RequestData);
  draws : nat;
}.

(** [transform_response]; [tools] is [optional_params.get("tools", None)]. *)
Definition transform_response (raw_response : Response) (request_data : RequestData)
    (messages : Messages) (tools : option (list ChatCompletionToolParam))
    (api_key : option string) (st : State)
    : (Raised Error + ModelResponse) * State :=
  let logged :=
    post_calls st ++
    [{| pc_input := messages; pc_api_key := api_key;
        pc_original_response := text raw_response;
        pc_complete_input_dict := request_data |}] in
  match response_json (text raw_response) with
  | inl e =>
      (inl (FireworksAIException
              ("Unable to get json response - " +:+ e
               +:+ ", Original Response: " +:+ text raw_response)
              (status_code raw_response)
              (Some (headers raw_response))),
       {| post_calls := logged; draws := draws st |})
  | inr completion_response =>
      let additional_headers := get_response_headers (headers raw_response) in
      match ModelResponse_init completion_response with
      | inl e => (inl (OtherException e), {| post_calls := logged; draws := draws st |})
      | inr response =>
          let model := (λ m, "fireworks_ai/" +:+ m) <$> model response in
          let '(cs, n) := handle_choices (choices response) tools (draws st) in
          (inr {| model := model; choices := cs;
                  _hidden_params := {["additional_headers" := additional_headers]};
                  response_attrs := response_attrs response |},
           {| post_calls := logged; draws := n |})
      end
  end.

End ResponseTransformation.

End Fireworks.

(** ** Router types ([litellm/types/router.py]) *)

Module Router.
Import Py.

(** *** Routing strategies *)

(** The [Literal] annotation of [RouterConfig.routing_strategy]. *)
Definition RouterConfig_routing_strategy : list string :=
  ["simple-shuffle"; "least-busy"; "usage-based-routing"; "latency-based-routing"].

Definition RouterConfig_routing_strategy_default : string := "simple-shuffle".

Inductive RoutingStrategy :=
  | LEAST_BUSY
  | LATENCY_BASED
  | COST_BASED
  | USAGE_BASED_ROUTING_V2
  | USAGE_BASED_ROUTING
  | PROVIDER_BUDGET_LIMITING.

Definition RoutingStrategy_value (s : RoutingStrategy) : string :=
  match s with
  | LEAST_BUSY => "least-busy"
  | LATENCY_BASED => "latency-based-routing"
  | COST_BASED => "cost-based-routing"
  | USAGE_BASED_ROUTING_V2 => "usage-based-routing-v2"
  | USAGE_BASED_ROUTING => "usage-based-routing"
  | PROVIDER_BUDGET_LIMITING => "provider-budget-routing"
  end.

Definition RoutingStrategy_members : list RoutingStrategy :=
  [LEAST_BUSY; LATENCY_BASED; COST_BASED; USAGE_BASED_ROUTING_V2;
   USAGE_BASED_ROUTING; PROVIDER_BUDGET_LIMITING].

(** A string selects a strategy when the [RouterConfig] literal lists it or
    it is the value of a [RoutingStrategy] member. *)
Definition selectable (v : string) : Prop :=
  v ∈ RouterConfig_routing_strategy ∨ ∃ s, RoutingStrategy_value s = v.

(** The strategies as the specification names them (section 4.4), each with
    the configuration value that selects it. *)
Inductive SpecStrategy :=
  | simple_shuffle
  | least_busy
  | latency_based
  | usage_based
  | usage_based_v2
  | cost_based
  | provider_budget_routing.

Definition strategy_value (s : SpecStrategy) : string :=
  match s with
  | simple_shuffle => "simple-shuffle"
  | least_busy => "least-busy"
  | latency_based => "latency-based-routing"
  | usage_based => "usage-based-routing"
  | usage_based_v2 => "usage-based-routing-v2"
  | cost_based => "cost-based-routing"
  | provider_budget_routing => "provider-budget-routing"
  end.

(** *** Per-error-kind policies *)

Definition RetryPolicy_cls : ModelClass := {|
  fields := [
    Field "BadRequestErrorRetries" (TOptional TInt) (Some VNone);
    Field "AuthenticationErrorRetries" (TOptional TInt) (Some VNone);
    Field "TimeoutErrorRetries" (TOptional TInt) (Some VNone);
    Field "RateLimitErrorRetries" (TOptional TInt) (Some VNone);
    Field "ContentPolicyViolationErrorRetries" (TOptional TInt) (Some VNone);
    Field "InternalServerErrorRetries" (TOptional TInt) (Some VNone)
  ];
  extra_allow := false;
|}.

Definition AllowedFailsPolicy_cls : ModelClass := {|
  fields := [
    Field "BadRequestErrorAllowedFails" (TOptional TInt) (Some VNone);
    Field "AuthenticationErrorAllowedFails" (TOptional TInt) (Some VNone);
    Field "TimeoutErrorAllowedFails" (TOptional TInt) (Some VNone);
    Field "RateLimitErrorAllowedFails" (TOptional TInt) (Some VNone);
    Field "ContentPolicyViolationErrorAllowedFails" (TOptional TInt) (Some VNone);
    Field "InternalServerErrorAllowedFails" (TOptional TInt) (Some VNone)
  ];
  extra_allow := false;
|}.

(** The error taxonomy of the specification (section 7). *)
Inductive ErrorKind :=
  | BadRequest
  | Authentication
  | Timeout
  | RateLimit
  | ContentPolicyViolation
  | InternalServerError
  | Other.

Definition ErrorKind_name (k : ErrorKind) : string :=
  match k with
  | BadRequest => "BadRequest"
  | Authentication => "Authentication"
  | Timeout => "Timeout"
  | RateLimit => "RateLimit"
  | ContentPolicyViolation => "ContentPolicyViolation"
  | InternalServerError => "InternalServerError"
  | Other => "Other"
  end.

(** A class lets [name] be configured when it declares a field of that name. *)
Definition declares (cls : ModelClass) (name : string) : Prop :=
  name ∈ field_names cls.

(** The policy fields are named after the exception class of the kind, which
    is the kind's name with or without [Error] appended, followed by what
    the field counts.  The field of a kind is the declared field so named,
    if there is one. *)
Definition field_of_kind (cls : ModelClass) (k : ErrorKind) (what : string)
    : option string :=
  List.find (λ n, bool_decide (n ∈ field_names cls))
    [ErrorKind_name k +:+ "Error" +:+ what; ErrorKind_name k +:+ what].

Definition retries_field (k : ErrorKind) : option string :=
  field_of_kind RetryPolicy_cls k "Retries".

Definition allowed_fails_field (k : ErrorKind) : option string :=
  field_of_kind AllowedFailsPolicy_cls k "AllowedFails".

(** *** ModelInfo *)

Definition ModelInfo_cls : ModelClass := {|
  fields := [
    Field "id" (TOptional TStr) None;
    Field "db_model" TBool (Some (VBool false));
    Field "updated_at" (TOptional TDatetime) (Some VNone);
    Field "updated_by" (TOptional TStr) (Some VNone);
    Field "created_at" (TOptional TDatetime) (Some VNone);
    Field "created_by" (TOptional TStr) (Some VNone);
    Field "base_model" (TOptional TStr) (Some VNone);
    Field "tier" (TOptional (TLiteral ["free"; "paid"])) (Some VNone);
    Field "team_id" (TOptional TStr) (Some VNone);
    Field "team_public_model_name" (TOptional TStr) (Some VNone)
  ];
  extra_allow := true;
|}.

(** [ModelInfo.__init__(id, params)] when [draws] identifiers were drawn so
    far: the instance (or a validation error) and the draws made after it.
    A [bool] is an [int] for [isinstance]. *)
Definition ModelInfo_init `{Pydantic, Uuid4} (id : value) (params : gmap string value)
    (draws : nat) : option (gmap string value) * nat :=
  let '(id, draws) :=
    match id with
    | VNone => (VStr (uuid4_str draws), S draws)
    | VInt n => (VStr (PyStr.str_int n), draws)
    | VBool b => (VStr (PyStr.str_bool b), draws)
    | _ => (id, draws)
    end in
  (BaseModel_init ModelInfo_cls (<["id" := id]> params), draws).

(** [ModelInfo] called with the entries of a dictionary [d] as keywords: the
    entry [id], when there is one, binds the parameter of that name and the
    others are [params]. *)
Definition ModelInfo_of_dict `{Pydantic, Uuid4} (d : gmap string value) (draws : nat)
    : option (gmap string value) * nat :=
  ModelInfo_init (dict_get d "id") (delete "id" d) draws.

(** *** Deployment *)

Definition SPECIAL_MODEL_INFO_PARAMS : list string :=
  ["input_cost_per_token"; "output_cost_per_token";
   "input_cost_per_character"; "output_cost_per_character"].

Record Deployment := {
  model_name : string;
  litellm_params : gmap string value;
  model_info : gmap string value;
  deployment_extra : gmap string value;
}.

(** The [model_info] argument: absent, a [ModelInfo] or a dictionary. *)
Inductive ModelInfoArg :=
  | NoModelInfo
  | ModelInfoObj (o : gmap string value)
  | ModelInfoDict (d : gmap string value).

(** The [if]/[elif] that opens [Deployment.__init__]. *)
Definition Deployment_model_info `{Pydantic, Uuid4} (model_info : ModelInfoArg)
    (draws : nat) : option (gmap string value) * nat :=
  match model_info with
  | NoModelInfo => ModelInfo_init VNone ∅ draws
  | ModelInfoDict d => ModelInfo_of_dict d draws
  | ModelInfoObj o => (Some o, draws)
  end.

(** One turn of the loop over [SPECIAL_MODEL_INFO_PARAMS]. *)
Definition copy_special_param (litellm_params : gmap string value)
    (model_info : gmap string value) (key : string) : gmap string value :=
  let field := getattr litellm_params key VNone in
  if is_None field then model_info else setattr model_info key field.

(** [Deployment.__init__].  The arguments have the annotated types, so the
    parent's validation keeps the [litellm_params] and [model_info] objects
    it is given and stores [params] as extra attributes. *)
Definition Deployment_init `{Pydantic, Uuid4} (model_name : string)
    (litellm_params : gmap string value) (model_info : ModelInfoArg)
    (params : gmap string value) (draws : nat) : option Deployment * nat :=
  let '(model_info, draws) := Deployment_model_info model_info draws in
  (model_info ← model_info;
   let model_info :=
     foldl (copy_special_param litellm_params) model_info SPECIAL_MODEL_INFO_PARAMS in
   Some {| model_name := model_name; litellm_params := litellm_params;
           model_info := model_info; deployment_extra := params |},
   draws).

(** *** ModelGroupInfo *)

Definition ModelGroupInfo_cls : ModelClass := {|
  fields := [
    Field "model_group" TStr None;
    Field "providers" (TList TStr) None;
    Field "max_input_tokens" (TOptional TFloat) (Some VNone);
    Field "max_output_tokens" (TOptional TFloat) (Some VNone);
    Field "input_cost_per_token" (TOptional TFloat) (Some VNone);
    Field "output_cost_per_token" (TOptional TFloat) (Some VNone);
    Field "mode"
      (TOptional (TUnion TStr (TLiteral
         ["chat"; "embedding"; "completion"; "image_generation";
          "audio_transcription"; "rerank"; "moderations"])))
      (Some (VStr "chat"));
    Field "tpm" (TOptional TInt) (Some VNone);
    Field "rpm" (TOptional TInt) (Some VNone);
    Field "tpd" (TOptional TInt) (Some VNone);
    Field "rpd" (TOptional TInt) (Some VNone);
    Field "supports_parallel_function_calling" TBool (Some (VBool false));
    Field "supports_vision" TBool (Some (VBool false));
    Field "supports_web_search" TBool (Some (VBool false));
    Field "supports_url_context" TBool (Some (VBool false));
    Field "supports_reasoning" TBool (Some (VBool false));
    Field "supports_function_calling" TBool (Some (VBool false));
    Field "supported_openai_params" (TOptional (TList TStr)) (Some (VList []));
    Field "configurable_clientside_auth_params"
      (TOptional (TList (TUnion TStr TDict))) (Some VNone)
  ];
  extra_allow := false;
|}.

(** The body of the loop in [ModelGroupInfo.__init__]. *)
Definition default_bool_field (data : gmap string value) (hint : string * FieldType)
    : gmap string value :=
  let '(field_name, field_type) := hint in
  if is_bool_type field_type && is_None (dict_get data field_name)
  then <[field_name := VBool false]> data
  else data.

Definition ModelGroupInfo_data (data : gmap string value) : gmap string value :=
  foldl default_bool_field data (get_type_hints ModelGroupInfo_cls).

Definition ModelGroupInfo_init `{Pydantic} (data : gmap string value)
    : option (gmap string value) :=
  BaseModel_init ModelGroupInfo_cls (ModelGroupInfo_data data).

(** The fields of [ModelGroupInfo] annotated [bool]. *)
Definition ModelGroupInfo_bool_fields : list string :=
  (filter (λ h, is_bool_type h.2 = true) (get_type_hints ModelGroupInfo_cls)).*1.

(** *** Router errors *)

Inductive RouterErrors :=
  | user_defined_ratelimit_error
  | no_deployments_available
  | no_deployments_with_tag_routing
  | no_deployments_with_provider_budget_routing.

Definition RouterErrors_value (e : RouterErrors) : string :=
  match e with
  | user_defined_ratelimit_error => "Deployment over user-defined ratelimit."
  | no_deployments_available => "No deployments available for selected model"
  | no_deployments_with_tag_routing =>
      "Not allowed to access model due to tags configuration"
  | no_deployments_with_provider_budget_routing =>
      "No deployments available - crossed budget"
  end.

(** How an f-string renders a float and a list: Python built-ins. *)
Class PyRender := {
  str_float : PrimFloat.float → string;
  str_list : list value → string;
}.

(** [RouterRateLimitError]: its attributes, and the message handed to
    [ValueError]. *)
Record RouterRateLimitError := {
  rle_model : string;
  rle_cooldown_time : PrimFloat.float;
  rle_enable_pre_call_checks : bool;
  rle_cooldown_list : list value;
  rle_message : string;
}.

Definition RouterRateLimitError_init `{PyRender} (model : string)
    (cooldown_time : PrimFloat.float) (enable_pre_call_checks : bool)
    (cooldown_list : list value) : RouterRateLimitError :=
  let _message :=
    RouterErrors_value no_deployments_available
    +:+ ", Try again in " +:+ str_float cooldown_time
    +:+ " seconds. Passed model=" +:+ model
    +:+ ". pre-call-checks=" +:+ PyStr.str_bool enable_pre_call_checks
    +:+ ", cooldown_list=" +:+ str_list cooldown_list in
  {| rle_model := model; rle_cooldown_time := cooldown_time;
     rle_enable_pre_call_checks := enable_pre_call_checks;
     rle_cooldown_list := cooldown_list; rle_message := _message |}.

(** Modelled from the spec: the routing engine's check of the candidate set
    (section 4.4: the set that survives filtering "must be non-empty or the
    call fails"), which lives in the Router class and is not among the
    sources.  The error it fails with is the one defined above. *)
Definition require_candidates `{PyRender} {D : Type} (model : string)
    (cooldown_time : PrimFloat.float) (enable_pre_call_checks : bool)
    (cooldown_list : list value) (candidates : list D)
    : RouterRateLimitError + list D :=
  match candidates with
  | [] => inl (RouterRateLimitError_init model cooldown_time
                 enable_pre_call_checks cooldown_list)
  | _ :: _ => inr candidates
  end.

(** *** Cache keys ([RouterCacheEnum]) *)

Inductive RouterCacheEnum := TPM | RPM | TPD | RPD.

Definition RouterCacheEnum_value (e : RouterCacheEnum) : string :=
  match e with
  | TPM => "global_router:{id}:{model}:tpm:{current_minute}"
  | RPM => "global_router:{id}:{model}:rpm:{current_minute}"
  | TPD => "global_router:{id}:{model}:tpd:{current_day}"
  | RPD => "global_router:{id}:{model}:rpd:{current_day}"
  end.

(** The components of the key scheme
    [{scope}:{router_id}:{model}:{window_kind}:{window_bucket}]. *)
Definition cache_scope : string := "global_router".

Definition window_kind (e : RouterCacheEnum) : string :=
  match e with TPM => "tpm" | RPM => "rpm" | TPD => "tpd" | RPD => "rpd" end.

(** The name of the replacement field that carries the bucket. *)
Definition bucket_field (e : RouterCacheEnum) : string :=
  match e with
  | TPM | RPM => "current_minute"
  | TPD | RPD => "current_day"
  end.

(** [e.value.format(id=.., model=.., <bucket field>=..)]: the usage-counter
    key of a window, the template's placeholders filled in by keyword. *)
Definition usage_key (e : RouterCacheEnum) (id model bucket : string) : option string :=
  PyStr.format (RouterCacheEnum_value e)
    (<[bucket_field e := bucket]> (<["model" := model]> {["id" := id]})).

(** The key scheme of the specification (section 6):
    [{scope}:{router_id}:{model}:{window_kind}:{window_bucket}]. *)
Definition key_scheme (scope router_id model window_kind window_bucket : string) : string :=
  scope +:+ ":" +:+ router_id +:+ ":" +:+ model +:+ ":" +:+ window_kind
  +:+ ":" +:+ window_bucket.

End Router.

(** ** The asyncio task statistics endpoint
    ([litellm/proxy/common_utils/debug_utils.py]) *)

Module Debug.

(** A coroutine object: the two name attributes, each possibly missing, and
    its [repr]. *)
Record Coroutine := {
  __qualname__ : option string;
  __name__ : option string;
  repr : string;
}.

Record Task := {
  done : bool;
  get_coro : Coroutine;
}.

(** [a or b] where [a] is an optional string: [None] and the empty string
    are false. *)
Definition or_else (a : option string) (b : string) : string :=
  match a with
  | Some (String _ _ as s) => s
  | _ => b
  end.

(** The human-readable name derived from the coroutine. *)
Definition coroutine_name (coro : Coroutine) : string :=
  or_else (__qualname__ coro) (or_else (__name__ coro) (repr coro)).

(** [counter[name] += 1] on a [collections.Counter]. *)
Definition Counter_incr (name : string) (counter : gmap string nat) : gmap string nat :=
  <[name := (default 0 (counter !! name) + 1)%nat]> counter.

Definition MAX_TASKS_TO_CHECK : nat := 5000.

(** The loop over [enumerate(active_tasks)], entered at index [idx]. *)
Fixpoint count_tasks (idx : nat) (active_tasks : list Task) (counter : gmap string nat)
    : gmap string nat :=
  match active_tasks with
  | [] => counter
  | task :: rest =>
      if (MAX_TASKS_TO_CHECK <=? idx)%nat then counter
      else count_tasks (S idx) rest (Counter_incr (coroutine_name (get_coro task)) counter)
  end.

Record Stats := {
  total_active_tasks : nat;
  by_name : gmap string nat;
}.

(** [get_active_tasks_stats], given the tasks of the event loop in the
    order [asyncio.all_tasks()] iterates them. *)
Definition get_active_tasks_stats (all_tasks : list Task) : Stats :=
  let active_tasks := filter (λ t, done t = false) all_tasks in
  let counter := count_tasks 0 active_tasks ∅ in
  {| total_active_tasks := length active_tasks; by_name := counter |}.

(** The sum of the counts of a counter. *)
Definition Counter_total (counter : gmap string nat) : nat :=
  map_fold (λ _ n acc, (n + acc)%nat) 0%nat counter.

End Debug.

(** ** Inputs of the worked examples *)

Module Examples.

Definition litellm_params : gmap string Py.value :=
  {["model" := Py.VStr "azure/gpt-4"; "input_cost_per_token" := Py.VFloat 0.5;
    "output_cost_per_token" := Py.VNone]}.

Definition model_info : gmap string Py.value :=
  {["id" := Py.VInt 7; "input_cost_per_token" := Py.VFloat 0.125;
    "output_cost_per_token" := Py.VFloat 0.25]}.

Definition model_group_data : gmap string Py.value :=
  {["model_group" := Py.VStr "gpt-4"; "providers" := Py.VList [Py.VStr "openai"];
    "supports_vision" := Py.VNone; "supports_reasoning" := Py.VBool true]}.

(** A task whose coroutine has the qualified name [name]. *)
Definition named_task (name : string) (finished : bool) : Debug.Task :=
  {| Debug.done := finished;
     Debug.get_coro :=
       {| Debug.__qualname__ := Some name; Debug.__name__ := None;
          Debug.repr := "<coroutine>" |} |}.

End Examples.

(** ** Python objects with dictionaries *)

Module Obj.

(** The values of request parameters: JSON-like, dictionaries included. *)
#[warnings="-register-all"]
Inductive obj :=
  | ONone
  | OBool (b : bool)
  | OInt (n : Z)
  | OStr (s : string)
  | OList (l : list obj)
  | ODict (d : gmap string obj).

Definition is_None (v : obj) : bool :=
  match v with ONone => true | _ => false end.

(** [v == s] for a string literal [s]. *)
Definition eq_str (v : obj) (s : string) : bool :=
  match v with OStr t => String.eqb t s | _ => false end.

(** [d.get(k)] on a dictionary. *)
Definition dict_get (d : gmap string obj) (k : string) : obj :=
  default ONone (d !! k).

(** [needle in haystack] for strings. *)
Definition str_in (needle haystack : string) : bool :=
  match String.index 0 needle haystack with Some _ => true | None => false end.

(** [a or b] for optional strings: [None] and the empty string are false. *)
Definition truthy (a : option string) : bool :=
  match a with Some (String _ _) => true | _ => false end.

Definition or_ (a b : option string) : option string :=
  if truthy a then a else b.

(** [str(v)] for the objects that are no strings already: a Python
    built-in. *)
Class PyFormat := format_obj : obj → string.

(** [f"{v}"]. *)
Definition fstring `{PyFormat} (v : obj) : string :=
  match v with OStr s => s | _ => format_obj v end.

End Obj.

(** ** Fireworks AI: configuration, parameters and provider info *)

Module FireworksConfig.
Import Obj.

(** *** [FireworksAIConfig.__init__] *)

(** The parameters of [__init__] after [self], in order. *)
Definition init_params : list string :=
  ["tools"; "tool_choice"; "max_tokens"; "temperature"; "top_p"; "top_k";
   "frequency_penalty"; "presence_penalty"; "n"; "stop"; "response_format";
   "user"; "logprobs"; "prompt_truncate_length";
   "context_length_exceeded_behavior"].

(** [locals()] without [self]: every parameter with the argument given for
    it, [None] when none was. *)
Definition init_locals (kwargs : gmap string obj) : list (string * obj) :=
  (λ key, (key, dict_get kwargs key)) <$> init_params.

(** The body of the loop: [setattr(self.__class__, key, value)] for the
    values that are not [None]; [cls] holds the attributes of the class. *)
Definition set_class_attr (cls : gmap string obj) (kv : string * obj) : gmap string obj :=
  if is_None kv.2 then cls else <[kv.1 := kv.2]> cls.

Definition FireworksAIConfig_init (kwargs : gmap string obj) (cls : gmap string obj)
    : gmap string obj :=
  foldl set_class_attr cls (init_locals kwargs).

(** *** [get_supported_openai_params] *)

(** [supports_function_calling] and [supports_tool_choice] of
    [litellm.utils], asked for the provider [fireworks_ai]. *)
Class ModelSupport := {
  supports_function_calling : string → bool;
  supports_tool_choice : string → bool;
}.

Definition base_supported_params : list string :=
  ["stream"; "max_completion_tokens"; "max_tokens"; "temperature"; "top_p";
   "top_k"; "frequency_penalty"; "presence_penalty"; "n"; "stop";
   "response_format"; "user"; "logprobs"; "prompt_truncate_length";
   "context_length_exceeded_behavior"].

Definition get_supported_openai_params `{ModelSupport} (model : string) : list string :=
  let supported_params := base_supported_params in
  let supported_params :=
    if supports_function_calling model then supported_params ++ ["tools"]
    else supported_params in
  let supported_params :=
    if supports_tool_choice model then supported_params ++ ["tool_choice"]
    else supported_params in
  supported_params.

(** *** [map_openai_params] *)

(** [_add_response_format_to_tools] of the parent class, called with
    [is_response_format_supported=False] and [enforce_tool_choice=False]. *)
Class ParentConfig :=
  _add_response_format_to_tools : gmap string obj → obj → gmap string obj.

(** ["json_schema" in value]: membership in a dictionary's keys, a list's
    elements or a string; a [TypeError] ([None] here) for the values that
    are not containers. *)
Definition has_json_schema (value : obj) : option bool :=
  match value with
  | ODict d => Some (bool_decide (is_Some (d !! "json_schema")))
  | OList l => Some (existsb (λ x, eq_str x "json_schema") l)
  | OStr s => Some (str_in "json_schema" s)
  | _ => None
  end.

(** [value["json_schema"]["schema"]]: both subscripts need dictionaries that
    hold the key. *)
Definition json_schema_schema (value : obj) : option obj :=
  match value with
  | ODict d =>
      match d !! "json_schema" with
      | Some (ODict js) => js !! "schema"
      | _ => None
      end
  | _ => None
  end.

(** [any(param == "tools" and value is not None for ...)]. *)
Definition is_tools_set (non_default_params : list (string * obj)) : bool :=
  existsb (λ pv, String.eqb pv.1 "tools" && negb (is_None pv.2)) non_default_params.

(** One turn of the loop over [non_default_params.items()]; [None] when the
    turn raises. *)
Definition map_param `{ParentConfig} (supported_openai_params : list string)
    (tools_set : bool) (optional_params : gmap string obj) (pv : string * obj)
    : option (gmap string obj) :=
  let '(param, value) := pv in
  if String.eqb param "tool_choice" then
    if eq_str value "required"
    then Some (<["tool_choice" := OStr "any"]> optional_params)
    else Some (<["tool_choice" := value]> optional_params)
  else if String.eqb param "response_format" then
    if tools_set then Some (_add_response_format_to_tools optional_params value)
    else
      has ← has_json_schema value;
      if has : bool then
        schema ← json_schema_schema value;
        Some (<["response_format" :=
                  ODict {["type" := OStr "json_object"; "schema" := schema]}]>
                optional_params)
      else Some (<["response_format" := value]> optional_params)
  else if String.eqb param "max_completion_tokens" then
    Some (<["max_tokens" := value]> optional_params)
  else if bool_decide (param ∈ supported_openai_params) then
    if negb (is_None value) then Some (<[param := value]> optional_params)
    else Some optional_params
  else Some optional_params.

(** [map_openai_params]; [non_default_params] lists the items of the
    dictionary in its order.  [drop_params] is not read. *)
Definition map_openai_params `{ModelSupport, ParentConfig}
    (non_default_params : list (string * obj)) (optional_params : gmap string obj)
    (model : string) (drop_params : bool) : option (gmap string obj) :=
  let supported_openai_params := get_supported_openai_params model in
  let tools_set := is_tools_set non_default_params in
  foldl (λ acc pv, optional_params ← acc;
                   map_param supported_openai_params tools_set optional_params pv)
    (Some optional_params) non_default_params.

(** *** [_add_transform_inline_image_block] *)

(** [None] when a subscript raises [KeyError]; an [image_url] that is
    neither a string nor a dictionary is left alone. *)
Definition _add_transform_inline_image_block `{PyFormat} (content : gmap string obj)
    (model : string) (disable_add_transform_inline_image_block : bool)
    : option (gmap string obj) :=
  if str_in "vision" model || disable_add_transform_inline_image_block then Some content
  else
    image_url ← content !! "image_url";
    match image_url with
    | OStr _ =>
        Some (<["image_url" := OStr (fstring image_url +:+ "#transform=inline")]> content)
    | ODict d =>
        url ← d !! "url";
        Some (<["image_url" :=
                  ODict (<["url" := OStr (fstring url +:+ "#transform=inline")]> d)]>
                content)
    | _ => Some content
    end.

(** *** [_transform_tools] *)

(** One turn of the loop: [tool.get] needs a dictionary, and a tool of type
    [function] a dictionary under [function]. *)
Definition transform_tool (tool : obj) : option obj :=
  match tool with
  | ODict d =>
      if eq_str (dict_get d "type") "function" then
        match d !! "function" with
        | Some (ODict f) => Some (ODict (<["function" := ODict (delete "strict" f)]> d))
        | _ => None
        end
      else Some tool
  | _ => None
  end.

Definition _transform_tools (tools : list obj) : option (list obj) :=
  mapM transform_tool tools.

(** The tools step of [transform_request].  The loop of [_transform_tools]
    runs over whatever [tools] holds: an empty string or dictionary passes
    through, any other value that is no list raises. *)
Definition transform_request_tools (optional_params : gmap string obj)
    : option (gmap string obj) :=
  match optional_params !! "tools" with
  | None | Some ONone => Some optional_params
  | Some (OList tools) =>
      tools ← _transform_tools tools;
      Some (<["tools" := OList tools]> optional_params)
  | Some (OStr EmptyString) => Some optional_params
  | Some (ODict d) => if bool_decide (dom d = ∅) then Some optional_params else None
  | Some _ => None
  end.

(** *** Provider info *)

(** [get_secret_str]: the secret manager and environment. *)
Class Secrets := get_secret_str : string → option string.

Definition default_api_base : string := "https://api.fireworks.ai/inference/v1".

Definition _get_openai_compatible_provider_info `{Secrets}
    (api_base api_key : option string) : option string * option string :=
  let api_base :=
    or_ api_base (or_ (get_secret_str "FIREWORKS_API_BASE") (Some default_api_base)) in
  let dynamic_api_key :=
    or_ api_key
      (or_ (get_secret_str "FIREWORKS_API_KEY")
         (or_ (get_secret_str "FIREWORKS_AI_API_KEY")
            (or_ (get_secret_str "FIREWORKSAI_API_KEY")
               (get_secret_str "FIREWORKS_AI_TOKEN")))) in
  (api_base, dynamic_api_key).

Definition get_api_key `{Secrets} (api_key : option string) : option string :=
  or_ api_key
    (or_ (get_secret_str "FIREWORKS_API_KEY")
       (or_ (get_secret_str "FIREWORKS_AI_API_KEY")
          (or_ (get_secret_str "FIREWORKSAI_API_KEY")
             (get_secret_str "FIREWORKS_AI_TOKEN")))).

(** The sources of the API key, in the order they are tried. *)
Definition api_key_sources `{Secrets} (api_key : option string) : list (option string) :=
  [api_key; get_secret_str "FIREWORKS_API_KEY"; get_secret_str "FIREWORKS_AI_API_KEY";
   get_secret_str "FIREWORKSAI_API_KEY"; get_secret_str "FIREWORKS_AI_TOKEN"].

(** *** [get_models] *)

(** What [litellm.module_level_client.get] is called with, and what the
    function reads of its answer: the status code and the decoded body.
    Of the body only the names under [models] matter; [resp_json] is [None]
    when [response.json()] raises, and holds [None] when reading the names
    off the decoded body does. *)
Record Request := {
  req_url : string;
  req_headers : gmap string string;
}.

Record HttpResponse := {
  resp_status_code : Z;
  resp_json : option (option (list string));
}.

(** The three [ValueError]s of [get_models], and whatever decoding or
    reading the body raises. *)
Inductive GetModelsError :=
  | MissingCredentials
  | MissingAccountId
  | FetchFailed (status_code : Z)
  | BodyError.

(** [get_models]: the requests made and the outcome. *)
Definition get_models `{Secrets} (client : Request → HttpResponse)
    (api_key api_base : option string)
    : list Request * (GetModelsError + list string) :=
  let '(api_base, api_key) := _get_openai_compatible_provider_info api_base api_key in
  match api_base, api_key with
  | Some api_base, Some api_key =>
      match get_secret_str "FIREWORKS_ACCOUNT_ID" with
      | None => ([], inl MissingAccountId)
      | Some account_id =>
          let request :=
            {| req_url := api_base +:+ "/v1/accounts/" +:+ account_id +:+ "/models";
               req_headers := {["Authorization" := "Bearer " +:+ api_key]} |} in
          let response := client request in
          if negb (resp_status_code response =? 200)%Z then
            match resp_json response with
            | None => ([request], inl BodyError)
            | Some _ => ([request], inl (FetchFailed (resp_status_code response)))
            end
          else
            match resp_json response with
            | Some (Some names) =>
                ([request], inr ((λ name, "fireworks_ai/" +:+ name) <$> names))
            | _ => ([request], inl BodyError)
            end
      end
  | _, _ => ([], inl MissingCredentials)
  end.

End FireworksConfig.

Module Examples2.
Import Obj.

Definition tools_in : list obj :=
  [ODict {["type" := OStr "function";
           "function" := ODict {["name" := OStr "get_weather"; "strict" := OBool true]}]};
   ODict {["type" := OStr "retrieval"]}].

Definition tools_out : list obj :=
  [ODict {["type" := OStr "function";
           "function" := ODict {["name" := OStr "get_weather"]}]};
   ODict {["type" := OStr "retrieval"]}].


Definition tool_choice_params : list (string * obj) :=
  [("tool_choice", OStr "required")].

Definition completion_tokens_params : list (string * obj) :=
  [("max_completion_tokens", ONone)].

End Examples2.

Module FireworksParams.
Import Obj FireworksConfig.

(** The key of [optional_params] that a turn of the loop of
    [map_openai_params] writes for the parameter [param], if it writes. *)
Definition param_target (param : string) : string :=
  if String.eqb param "max_completion_tokens" then "max_tokens" else param.

(** The parameters the loop handles before it asks whether the model
    supports them. *)
Definition unconditional_params : list string :=
  ["tool_choice"; "response_format"; "max_completion_tokens"].

(** A model that supports neither tools nor tool choice, and a parent class
    that leaves the parameters alone, for running examples. *)
Definition no_support : ModelSupport :=
  {| supports_function_calling := λ _, false; supports_tool_choice := λ _, false |}.

Definition idle_parent : ParentConfig := λ optional_params _, optional_params.


End FireworksParams.

Module Examples3.
Import Fireworks.

(** Collaborators for running examples: a decoder that reads a content as
    the name of a function. *)
Definition toy_collaborators : Collaborators := {|
  Json := unit;
  Error := unit;
  response_json := λ _, inl "no JSON";
  ModelResponse_init := λ _, inl tt;
  Function_of_json := λ text, Some {| fn_name := Some text; fn_arguments := "{}" |};
  get_response_headers := λ headers, headers;
  RESPONSE_FORMAT_TOOL_NAME := "json_tool_call";
|}.

Definition weather_choice : Choices :=
  {| message := {| content := Some "get_weather"; tool_calls := None;
                   message_attrs := ∅ |};
     choice_attrs := ∅ |}.

Definition weather_tools : option (list ChatCompletionToolParam) :=
  Some [{| tool_function_name := Some "get_weather" |}].

Definition weather_call (id : string) : Choices :=
  {| message :=
       {| content := None;
          tool_calls :=
            Some [{| tc_function := {| fn_name := Some "get_weather"; fn_arguments := "{}" |};
                     tc_id := id; tc_type := "function" |}];
          message_attrs := ∅ |};
     choice_attrs := ∅ |}.

End Examples3.

(** ** Debug endpoints: spans and loggers
    ([litellm/proxy/common_utils/debug_utils.py]) *)

Module Otel.

(** A recorded span, as far as the endpoint reads it; [parent] is
    [span.parent.trace_id] when the span has a parent. *)
Record Span := {
  name : string;
  parent : option Z;
  start_time : Z;
}.

(** The variables of the loop. *)
Record Loop := {
  most_recent_parent : option Z;
  most_recent_start_time : Z;
  spans_grouped_by_parent : gmap Z (list string);
}.

Definition loop_start : Loop :=
  {| most_recent_parent := None; most_recent_start_time := 1000000;
     spans_grouped_by_parent := ∅ |}.

(** One turn of the loop over [recorded_spans]. *)
Definition loop_step (st : Loop) (span : Span) : Loop :=
  match parent span with
  | None => st
  | Some parent_trace_id =>
      let grouped :=
        <[parent_trace_id :=
            default [] (spans_grouped_by_parent st !! parent_trace_id) ++ [name span]]>
          (spans_grouped_by_parent st) in
      if (most_recent_start_time st <? start_time span)%Z
      then {| most_recent_parent := Some parent_trace_id;
              most_recent_start_time := start_time span;
              spans_grouped_by_parent := grouped |}
      else {| most_recent_parent := most_recent_parent st;
              most_recent_start_time := most_recent_start_time st;
              spans_grouped_by_parent := grouped |}
  end.

(** The answer of the endpoint; the dictionary of groups is a map here, the
    order of its keys is not kept. *)
Record OtelSpans := {
  otel_spans : list string;
  grouped_by_parent : gmap Z (list string);
  recent_parent : option Z;
}.

(** [get_otel_spans].  [open_telemetry_logger] is [None] when there is no
    logger; otherwise it holds the finished spans of the exporter, or
    [None] when the exporter has no [get_finished_spans]. *)
Definition get_otel_spans (open_telemetry_logger : option (option (list Span)))
    : OtelSpans :=
  match open_telemetry_logger with
  | None => {| otel_spans := []; grouped_by_parent := ∅; recent_parent := None |}
  | Some otel_exporter =>
      let recorded_spans := default [] otel_exporter in
      let st := foldl loop_step loop_start recorded_spans in
      {| otel_spans := name <$> recorded_spans;
         grouped_by_parent := spans_grouped_by_parent st;
         recent_parent := most_recent_parent st |}
  end.

(** The names of the spans of [spans] whose parent is [p], in order. *)
Definition children (p : Z) (spans : list Span) : list string :=
  name <$> filter (λ s, parent s = Some p) spans.

(** What the loop has gathered after the spans [seen]. *)
Definition loop_invariant (seen : list Span) (st : Loop) : Prop :=
  (1000000 ≤ most_recent_start_time st)%Z
  ∧ (∀ s, s ∈ seen → parent s ≠ None →
       (start_time s ≤ most_recent_start_time st)%Z)
  ∧ (most_recent_parent st = None → most_recent_start_time st = 1000000%Z)
  ∧ (∀ p, most_recent_parent st = Some p →
       ∃ s, s ∈ seen ∧ parent s = Some p
            ∧ start_time s = most_recent_start_time st
            ∧ (1000000 < start_time s)%Z)
  ∧ ∀ p, spans_grouped_by_parent st !! p
         = match children p seen with [] => None | names => Some names end.

End Otel.

Module Loggers.
Import Obj.

(** [logging.INFO] and [logging.DEBUG]. *)
Definition INFO : Z := 20.
Definition DEBUG : Z := 10.

(** The levels of the three loggers of [litellm._logging]. *)
Record Levels := {
  verbose_logger : Z;
  verbose_router_logger : Z;
  verbose_proxy_logger : Z;
}.

(** What [init_verbose_loggers] reads from outside: the secret
    [WORKER_CONFIG], [os.path.isfile], [json.loads] (the text of the
    exception, or the value), the environment variable [LITELLM_LOG] and
    [str.upper]. *)
Class Environment := {
  worker_config : option string;
  isfile : string → bool;
  json_loads : string → string + obj;
  litellm_log : option string;
  upper : string → string;
}.

(** [v is True] and [v is False]. *)
Definition is_True (v : obj) : bool :=
  match v with OBool true => true | _ => false end.

Definition is_False (v : obj) : bool :=
  match v with OBool false => true | _ => false end.

Definition set_all (level : Z) : Levels :=
  {| verbose_logger := level; verbose_router_logger := level;
     verbose_proxy_logger := level |}.

Definition set_router_and_proxy (level : Z) (levels : Levels) : Levels :=
  {| verbose_logger := verbose_logger levels; verbose_router_logger := level;
     verbose_proxy_logger := level |}.

(** The part of [init_verbose_loggers] that follows the decoding of the
    settings. *)
Definition apply_settings `{Environment} (_settings : gmap string obj) (levels : Levels)
    : Levels :=
  let debug := dict_get _settings "debug" in
  let detailed_debug := dict_get _settings "detailed_debug" in
  let levels := if is_True debug then set_all INFO else levels in
  if is_True detailed_debug then set_all DEBUG
  else if is_False debug && is_False detailed_debug then
    let litellm_log_setting := default "" litellm_log in
    if String.eqb (upper litellm_log_setting) "INFO"
    then set_router_and_proxy INFO levels
    else if String.eqb (upper litellm_log_setting) "DEBUG"
    then set_router_and_proxy DEBUG levels
    else levels
  else levels.

(** [init_verbose_loggers]: the levels it leaves and the warnings it logs. *)
Definition init_verbose_loggers `{Environment} (levels : Levels) : Levels * list string :=
  match worker_config with
  | None => (levels, [])
  | Some worker_config =>
      if isfile worker_config then (levels, [])
      else
        match json_loads worker_config with
        | inl e => (levels, ["Failed to init verbose loggers: " +:+ e])
        | inr (ODict _settings) => (apply_settings _settings levels, [])
        | inr _ => (levels, [])
        end
  end.

End Loggers.

(** ** Router types: keys, dictionary-style access and shared objects
    ([litellm/types/router.py]) *)

Module CacheKeys.

(** [":" not in s]. *)
Fixpoint colon_free (s : string) : bool :=
  match s with
  | EmptyString => true
  | String c rest => negb (Ascii.eqb c ":") && colon_free rest
  end.

End CacheKeys.

Module Access.
Import Py.

(** The dictionary-style methods of [ModelInfo], [GenericLiteLLMParams],
    [LiteLLM_Params] and [Deployment], on an instance as the map of its
    attributes: [key in o] is [hasattr], [o.get] is [getattr] with a
    default, [o[key]] is [getattr] without one ([None] here for the
    [AttributeError]) and [o[key] = value] is [setattr]. *)
Definition contains (o : gmap string value) (key : string) : bool :=
  bool_decide (is_Some (o !! key)).




End Access.

(** [Deployment.__init__] with the [ModelInfo] objects in a store, so that
    an object handed to the constructor and the object the deployment holds
    are one: the loop over [SPECIAL_MODEL_INFO_PARAMS] assigns to the
    attributes of the object it is given. *)
Module Shared.
Import Py.

(** The [ModelInfo] objects alive, by address. *)
Abbreviation Store := (gmap nat (gmap string value)).

(** A new object. *)
Definition new (o : gmap string value) (store : Store) : nat * Store :=
  let l := fresh (dom store) in (l, <[l := o]> store).

(** The [model_info] argument: absent, a [ModelInfo] object or a
    dictionary. *)
Inductive ModelInfoArg :=
  | NoModelInfo
  | ModelInfoAt (l : nat)
  | ModelInfoDict (d : gmap string value).

Record Deployment := {
  model_name : string;
  litellm_params : gmap string value;
  model_info : nat;
  deployment_extra : gmap string value;
}.

(** The [if]/[elif] that opens [Deployment.__init__]. *)
Definition Deployment_model_info `{Pydantic, Uuid4} (model_info : ModelInfoArg)
    (store : Store) (draws : nat) : option (nat * Store) * nat :=
  match model_info with
  | NoModelInfo =>
      let '(o, draws) := Router.ModelInfo_init VNone ∅ draws in
      (o ← o; Some (new o store), draws)
  | ModelInfoDict d =>
      let '(o, draws) := Router.ModelInfo_of_dict d draws in
      (o ← o; Some (new o store), draws)
  | ModelInfoAt l => (Some (l, store), draws)
  end.

(** One turn of the loop over [SPECIAL_MODEL_INFO_PARAMS]. *)
Definition copy_special_param (litellm_params : gmap string value) (model_info : nat)
    (store : Store) (key : string) : Store :=
  let field := getattr litellm_params key VNone in
  if is_None field then store
  else alter (λ o, setattr o key field) model_info store.

Definition Deployment_init `{Pydantic, Uuid4} (model_name : string)
    (litellm_params : gmap string value) (model_info : ModelInfoArg)
    (params : gmap string value) (store : Store) (draws : nat)
    : option (Deployment * Store) * nat :=
  let '(made, draws) := Deployment_model_info model_info store draws in
  ('(model_info, store) ← made;
   let store :=
     foldl (copy_special_param litellm_params model_info) store
       Router.SPECIAL_MODEL_INFO_PARAMS in
   Some ({| model_name := model_name; litellm_params := litellm_params;
            model_info := model_info; deployment_extra := params |}, store),
   draws).

(** The argument as the constructor without a store takes it. *)
Definition arg_value (store : Store) (model_info : ModelInfoArg)
    : option Router.ModelInfoArg :=
  match model_info with
  | NoModelInfo => Some Router.NoModelInfo
  | ModelInfoDict d => Some (Router.ModelInfoDict d)
  | ModelInfoAt l => Router.ModelInfoObj <$> store !! l
  end.

End Shared.

Module Examples4.
Import Py.

Definition priced (input output : Z) : gmap string value :=
  <["model" := VStr "gpt-4"]>
    (<["input_cost_per_token" := VInt input]>
       {["output_cost_per_token" := VInt output]}).

Definition one_info : Shared.Store := {[ 0%nat := {["id" := VStr "m1"]} ]}.

End Examples4.

(** ** Debug endpoints: the in-memory caches
    ([litellm/proxy/common_utils/debug_utils.py]) *)

Module MemCache.

Section Caches.
(** The cached values and the expiry times are opaque. *)
Context {V T : Type}.

(** [InMemoryCache], as far as the endpoints read it. *)
Record InMemoryCache := {
  cache_dict : gmap string V;
  ttl_dict : gmap string T;
}.

(** What the endpoints import from the proxy server: the in-memory cache of
    the router ([None] without a router), of the key cache and of the
    internal usage cache of the logging object. *)
Record Proxy := {
  llm_router : option InMemoryCache;
  user_api_key_cache : InMemoryCache;
  proxy_logging_obj : InMemoryCache;
}.

Record Counts := {
  num_items_in_user_api_key_cache : nat;
  num_items_in_llm_router_cache : nat;
  num_items_in_proxy_logging_obj_cache : nat;
}.

Definition memory_usage_in_mem_cache (p : Proxy) : Counts :=
  let num_items_in_llm_router_cache :=
    match llm_router p with
    | None => 0
    | Some c => size (cache_dict c) + size (ttl_dict c)
    end in
  let num_items_in_user_api_key_cache :=
    size (cache_dict (user_api_key_cache p)) + size (ttl_dict (user_api_key_cache p)) in
  let num_items_in_proxy_logging_obj_cache :=
    size (cache_dict (proxy_logging_obj p)) + size (ttl_dict (proxy_logging_obj p)) in
  {| num_items_in_user_api_key_cache := num_items_in_user_api_key_cache;
     num_items_in_llm_router_cache := num_items_in_llm_router_cache;
     num_items_in_proxy_logging_obj_cache := num_items_in_proxy_logging_obj_cache |}.

Record Items := {
  user_api_key_cache_items : gmap string V;
  user_api_key_ttl : gmap string T;
  llm_router_cache : gmap string V;
  llm_router_ttl : gmap string T;
  proxy_logging_obj_cache : gmap string V;
  proxy_logging_obj_ttl : gmap string T;
}.

Definition memory_usage_in_mem_cache_items (p : Proxy) : Items :=
  let '(llm_router_in_memory_cache_dict, llm_router_in_memory_ttl_dict) :=
    match llm_router p with
    | None => (∅, ∅)
    | Some c => (cache_dict c, ttl_dict c)
    end in
  {| user_api_key_cache_items := cache_dict (user_api_key_cache p);
     user_api_key_ttl := ttl_dict (user_api_key_cache p);
     llm_router_cache := llm_router_in_memory_cache_dict;
     llm_router_ttl := llm_router_in_memory_ttl_dict;
     proxy_logging_obj_cache := cache_dict (proxy_logging_obj p);
     proxy_logging_obj_ttl := ttl_dict (proxy_logging_obj p) |}.

End Caches.

Arguments InMemoryCache : clear implicits.
Arguments Proxy : clear implicits.
Arguments Items : clear implicits.

End MemCache.

(** ** Fireworks AI: the messages of a request
    ([litellm/llms/fireworks_ai/chat/transformation.py]) *)

Module FireworksMessages.
Import Obj FireworksConfig.

(** The truth value of an object. *)
Definition truth (v : obj) : bool :=
  match v with
  | ONone => false
  | OBool b => b
  | OInt n => negb (n =? 0)%Z
  | OStr s => negb (String.eqb s "")
  | OList l => match l with [] => false | _ => true end
  | ODict d => negb (bool_decide (dom d = ∅))
  end.

(** [a or b]. *)
Definition or_obj (a b : obj) : obj := if truth a then a else b.

(** The helpers of [prompt_templates.common_utils] that
    [_transform_messages_helper] imports: [migrate_file_to_image_url] (may
    raise), and [filter_value_from_dict], as the dictionary it leaves. *)
Class PromptTemplates := {
  migrate_file_to_image_url : gmap string obj → option (gmap string obj);
  filter_value_from_dict : gmap string obj → string → gmap string obj;
}.

(** The test that opens both loops: the content of a message whose role is
    [user] and whose content is a list; [Some None] for any other message,
    [None] for the [KeyError] of a message without a role. *)
Definition user_content (message : gmap string obj) : option (option (list obj)) :=
  role ← message !! "role";
  Some (if eq_str role "user"
        then match dict_get message "content" with
             | OList _message_content => Some _message_content
             | _ => None
             end
        else None).

(** [content["type"]]: a block that is no dictionary, or has no type,
    raises. *)
Definition block_type (content : obj) : option (gmap string obj * obj) :=
  match content with
  | ODict c => ty ← c !! "type"; Some (c, ty)
  | _ => None
  end.

(** The body of the first loop, for one message: each block of type [file]
    is replaced in the list. *)
Definition migrate_block `{PromptTemplates} (content : obj) : option obj :=
  '(c, ty) ← block_type content;
  if eq_str ty "file" then ODict <$> migrate_file_to_image_url c else Some content.

Definition migrate_files `{PromptTemplates} (message : gmap string obj)
    : option (gmap string obj) :=
  _message_content ← user_content message;
  match _message_content with
  | Some _message_content =>
      blocks ← mapM migrate_block _message_content;
      Some (<["content" := OList blocks]> message)
  | None => Some message
  end.

(** The body of the second loop, for one message: each block of type
    [image_url] is rewritten in place, then the message is filtered. *)
Definition inline_block `{PyFormat} (model : string) (disable : bool) (content : obj)
    : option obj :=
  '(c, ty) ← block_type content;
  if eq_str ty "image_url"
  then ODict <$> _add_transform_inline_image_block c model disable
  else Some content.

Definition inline_images `{PyFormat, PromptTemplates} (model : string) (disable : bool)
    (message : gmap string obj) : option (gmap string obj) :=
  _message_content ← user_content message;
  message ← match _message_content with
            | Some _message_content =>
                blocks ← mapM (inline_block model disable) _message_content;
                Some (<["content" := OList blocks]> message)
            | None => Some message
            end;
  Some (filter_value_from_dict message "cache_control").

(** [_transform_messages_helper]; [global_disable] is
    [litellm.disable_add_transform_inline_image_block].  The messages and
    their blocks are distinct objects. *)
Definition _transform_messages_helper `{PyFormat, PromptTemplates}
    (messages : list (gmap string obj)) (model : string)
    (litellm_params : gmap string obj) (global_disable : obj)
    : option (list (gmap string obj)) :=
  let disable_add_transform_inline_image_block :=
    or_obj (dict_get litellm_params "disable_add_transform_inline_image_block")
      global_disable in
  messages ← mapM migrate_files messages;
  mapM (inline_images model (truth disable_add_transform_inline_image_block)) messages.

End FireworksMessages.

Module Examples5.
Import Obj FireworksMessages.





End Examples5.

(** * Properties *)

(** ** Strings *)

Lemma string_length_app (s1 s2 : string) :
  String.length (s1 +:+ s2) = (String.length s1 + String.length s2)%nat.
Proof. induction s1 as [|c s1 IH]; simpl; [done | by rewrite IH]. Qed.

Lemma string_app_nil_r (s : string) : s +:+ "" = s.
Proof.
  induction s as [|c s IH]; [done|].
  change (String c (s +:+ "") = String c s). by f_equal.
Qed.

Lemma string_app_assoc (s t u : string) : (s +:+ t) +:+ u = s +:+ t +:+ u.
Proof.
  induction s as [|c s IH]; [done|].
  change (String c ((s +:+ t) +:+ u) = String c (s +:+ t +:+ u)). by f_equal.
Qed.

Lemma startswith_app (p s : string) : PyStr.startswith (p +:+ s) p = true.
Proof.
  unfold PyStr.startswith. induction p as [|c p IH]; [by destruct s|].
  simpl. by destruct (ascii_dec c c).
Qed.

Lemma contains_prefix (s t : string) : PyStr.contains (s +:+ t) s.
Proof. by exists "", t. Qed.

Lemma contains_suffix (s t : string) : PyStr.contains (s +:+ t) t.
Proof.
  exists s, "". by rewrite string_app_nil_r.
Qed.

Example str_int_pos : PyStr.str_int 42 = "42".
Proof. reflexivity. Qed.

Example str_int_neg : PyStr.str_int (-7) = "-7".
Proof. reflexivity. Qed.

Example str_int_zero : PyStr.str_int 0 = "0".
Proof. reflexivity. Qed.

Example format_missing_field :
  PyStr.format "a:{id}:{model}" {["id" := "x"]} = None.
Proof. vm_compute. reflexivity. Qed.

Example format_unbalanced : PyStr.format "a:{id" {["id" := "x"]} = None.
Proof. vm_compute. reflexivity. Qed.

(** ** pydantic models *)

Section PydanticFacts.
Import Py.
Context `{Pydantic}.

Lemma init_fields_undeclared data fs o k :
  init_fields data fs = Some o → k ∉ f_name <$> fs → o !! k = None.
Proof.
  revert o. induction fs as [|f fs IH]; intros o Ho Hk; simpl in *.
  - by inversion Ho.
  - destruct (init_field data f) as [v|]; [|done]. simpl in Ho.
    destruct (init_fields data fs) as [o'|]; [|done]. simpl in Ho.
    inversion Ho; subst. apply not_elem_of_cons in Hk as [Hne Hk].
    rewrite lookup_insert_ne by done. by apply IH.
Qed.

(** A declared field of the instance holds what its initialisation gave. *)
Lemma init_fields_declared data fs o f :
  NoDup (f_name <$> fs) → f ∈ fs → init_fields data fs = Some o →
  ∃ v, init_field data f = Some v ∧ o !! f_name f = Some v.
Proof.
  revert o. induction fs as [|g fs IH]; intros o Hnd Hf Ho; simpl in *.
  - by apply elem_of_nil in Hf.
  - apply NoDup_cons in Hnd as [Hg Hnd].
    destruct (init_field data g) as [v|] eqn:Hv; [|done]. simpl in Ho.
    destruct (init_fields data fs) as [o'|] eqn:Ho'; [|done]. simpl in Ho.
    inversion Ho; subst. apply elem_of_cons in Hf as [->|Hf].
    + exists v. by rewrite lookup_insert_eq.
    + destruct (IH o' Hnd Hf eq_refl) as (w & Hw & Hlook).
      exists w. split; [done|]. rewrite lookup_insert_ne; [done|].
      intros Heq. apply Hg. rewrite Heq. by apply list_elem_of_fmap_2.
Qed.

(** A keyword that names no field of the list does not change them. *)
Lemma init_fields_insert_undeclared data fs k v :
  k ∉ f_name <$> fs → init_fields (<[k := v]> data) fs = init_fields data fs.
Proof.
  induction fs as [|f fs IH]; intros Hk; simpl in *; [done|].
  apply not_elem_of_cons in Hk as [Hne Hk].
  unfold init_field at 1. rewrite lookup_insert_ne by done.
  fold (init_field data f). by rewrite IH.
Qed.

(** Supplying a valid value for one declared field sets that field of the
    instance and leaves the others as they were. *)
Lemma init_fields_insert_declared data fs o f v v' :
  NoDup (f_name <$> fs) → f ∈ fs → validate (f_type f) v = Some v' →
  init_fields data fs = Some o →
  init_fields (<[f_name f := v]> data) fs = Some (<[f_name f := v']> o).
Proof.
  revert o. induction fs as [|g fs IH]; intros o Hnd Hf Hv Ho; simpl in *.
  - by apply elem_of_nil in Hf.
  - apply NoDup_cons in Hnd as [Hg Hnd].
    destruct (init_field data g) as [w|] eqn:Hw; [|done]. simpl in Ho.
    destruct (init_fields data fs) as [o'|] eqn:Ho'; [|done]. simpl in Ho.
    inversion Ho; subst. apply elem_of_cons in Hf as [->|Hf].
    + unfold init_field at 1. rewrite lookup_insert_eq, Hv. simpl.
      rewrite init_fields_insert_undeclared, Ho' by done. simpl.
      by rewrite insert_insert_eq.
    + assert (f_name f ≠ f_name g) as Hne.
      { intros Heq. apply Hg. rewrite <- Heq. by apply list_elem_of_fmap_2. }
      unfold init_field at 1. rewrite lookup_insert_ne by done.
      fold (init_field data g). rewrite Hw. simpl.
      rewrite (IH o') by done. simpl. by rewrite insert_insert_ne.
Qed.

(** A class that ignores extras builds the same instance whatever undeclared
    keywords it is given. *)
Lemma BaseModel_init_ignores cls data k v :
  extra_allow cls = false → k ∉ field_names cls →
  BaseModel_init cls (<[k := v]> data) = BaseModel_init cls data.
Proof.
  intros Hex Hk. unfold BaseModel_init.
  rewrite init_fields_insert_undeclared by done. by rewrite Hex.
Qed.

Lemma BaseModel_init_configure cls data o f v v' :
  extra_allow cls = false → NoDup (field_names cls) → f ∈ fields cls →
  validate (f_type f) v = Some v' →
  BaseModel_init cls data = Some o →
  BaseModel_init cls (<[f_name f := v]> data) = Some (<[f_name f := v']> o).
Proof.
  intros Hex Hnd Hf Hv. unfold BaseModel_init. rewrite Hex.
  destruct (init_fields data (fields cls)) as [o'|] eqn:Ho'; [|done].
  simpl. intros [= <-].
  by rewrite (init_fields_insert_declared data (fields cls) o' f v v').
Qed.

(** The constructor succeeds when every field initialises. *)
Lemma init_fields_is_Some data fs :
  Forall (λ f, is_Some (init_field data f)) fs → is_Some (init_fields data fs).
Proof.
  induction 1 as [|f fs [v Hv] _ [o Ho]]; simpl; [by eexists|].
  rewrite Hv, Ho. simpl. by eexists.
Qed.

Lemma BaseModel_init_is_Some cls data :
  Forall (λ f, is_Some (init_field data f)) (fields cls) →
  is_Some (BaseModel_init cls data).
Proof.
  intros [o Ho]%init_fields_is_Some. unfold BaseModel_init. rewrite Ho.
  simpl. by eexists.
Qed.

(** A declared field of a constructed instance holds its initial value. *)
Lemma BaseModel_init_lookup cls data o f :
  NoDup (field_names cls) → f ∈ fields cls →
  BaseModel_init cls data = Some o →
  o !! f_name f = init_field data f.
Proof.
  intros Hnd Hf. unfold BaseModel_init.
  destruct (init_fields data (fields cls)) as [o'|] eqn:Ho'; [|done].
  simpl. intros [= <-].
  destruct (init_fields_declared _ _ o' f Hnd Hf Ho') as (v & -> & Hlook).
  destruct (extra_allow cls); [by apply lookup_union_Some_l | done].
Qed.

(** A class that allows extras keeps an undeclared keyword as it is. *)
Lemma BaseModel_init_lookup_extra cls data o k :
  extra_allow cls = true → k ∉ field_names cls →
  BaseModel_init cls data = Some o →
  o !! k = data !! k.
Proof.
  intros Hex Hk. unfold BaseModel_init. rewrite Hex.
  destruct (init_fields data (fields cls)) as [o'|] eqn:Ho'; [|done].
  simpl. intros [= <-].
  by rewrite lookup_union_r by by eapply init_fields_undeclared.
Qed.

End PydanticFacts.

(** ** Fireworks AI: the model name of a request *)

Lemma accounts_prefixed (model : string) :
  PyStr.startswith ("accounts/fireworks/models/" +:+ model) "accounts/" = true.
Proof. reflexivity. Qed.

Example transform_request_model_short :
  Fireworks.transform_request_model "llama-v3-8b"
  = "accounts/fireworks/models/llama-v3-8b".
Proof. reflexivity. Qed.

Example transform_request_model_full :
  Fireworks.transform_request_model "accounts/acme/models/m"
  = "accounts/acme/models/m".
Proof. reflexivity. Qed.

(** C10: the model name [transform_request] works with is prefixed with
    "accounts/fireworks/models/" exactly when it does not start with
    "accounts/"; a name that starts with "accounts/" is kept; normalising
    twice is normalising once; and [transform_request] hands the normalised
    name to the parent class, so calling it on a normalised name builds the
    same request. *)
Theorem transform_request_model_idempotent (model : string) :
  (Fireworks.transform_request_model model = "accounts/fireworks/models/" +:+ model
   ↔ PyStr.startswith model "accounts/" = false)
  ∧ (PyStr.startswith model "accounts/" = true →
     Fireworks.transform_request_model model = model)
  ∧ Fireworks.transform_request_model (Fireworks.transform_request_model model)
    = Fireworks.transform_request_model model
  ∧ ∀ (Messages OptionalParams LitellmParams Headers Request : Type)
      (helper : Messages → string → LitellmParams → Messages)
      (tools : OptionalParams → OptionalParams)
      (super : string → Messages → OptionalParams → LitellmParams → Headers → Request)
      messages optional_params litellm_params headers,
      Fireworks.transform_request helper tools super model
        messages optional_params litellm_params headers
      = super (Fireworks.transform_request_model model)
          (helper messages (Fireworks.transform_request_model model) litellm_params)
          (tools optional_params) litellm_params headers
      ∧ Fireworks.transform_request helper tools super
          (Fireworks.transform_request_model model)
          messages optional_params litellm_params headers
        = Fireworks.transform_request helper tools super model
            messages optional_params litellm_params headers.
Proof.
  assert (Hidem : Fireworks.transform_request_model (Fireworks.transform_request_model model)
                  = Fireworks.transform_request_model model).
  { unfold Fireworks.transform_request_model.
    destruct (PyStr.startswith model "accounts/") eqn:Hpre; cbn [negb].
    - by rewrite Hpre.
    - by rewrite accounts_prefixed. }
  split; [|split; [|split]].
  - unfold Fireworks.transform_request_model.
    destruct (PyStr.startswith model "accounts/") eqn:Hpre; simpl; [|done].
    split; [|done]. intros Heq. apply (f_equal String.length) in Heq.
    rewrite string_length_app in Heq. simpl in Heq. lia.
  - intros Hpre. unfold Fireworks.transform_request_model. by rewrite Hpre.
  - exact Hidem.
  - intros. split; [reflexivity|].
    unfold Fireworks.transform_request. by rewrite Hidem.
Qed.

(** ** Routing strategies *)

(** Neither type alone offers every strategy: the literal has no cost-based
    value and the enum no simple-shuffle. *)
Example literal_lacks_cost_based :
  Router.strategy_value Router.cost_based ∉ Router.RouterConfig_routing_strategy.
Proof. apply (bool_decide_unpack _). by vm_compute. Qed.

Example enum_lacks_simple_shuffle (s : Router.RoutingStrategy) :
  Router.RoutingStrategy_value s ≠ Router.strategy_value Router.simple_shuffle.
Proof. by destruct s. Qed.

(** C1: every strategy the specification names (simple-shuffle, least-busy,
    latency-based, usage-based, usage-based-v2, cost-based,
    provider-budget-routing) has a selectable configuration value: a member
    of the [RouterConfig.routing_strategy] literal or the value of a
    [RoutingStrategy] member; different strategies have different values. *)
Theorem spec_strategies_selectable :
  (∀ s : Router.SpecStrategy, Router.selectable (Router.strategy_value s))
  ∧ (∀ s1 s2 : Router.SpecStrategy,
       Router.strategy_value s1 = Router.strategy_value s2 → s1 = s2).
Proof.
  split.
  - intros s. unfold Router.selectable. destruct s; simpl.
    + left. set_solver.
    + left. set_solver.
    + right. by exists Router.LATENCY_BASED.
    + right. by exists Router.USAGE_BASED_ROUTING.
    + right. by exists Router.USAGE_BASED_ROUTING_V2.
    + right. by exists Router.COST_BASED.
    + right. by exists Router.PROVIDER_BUDGET_LIMITING.
  - intros s1 s2. by destruct s1, s2.
Qed.

(** ** Cache keys *)

Example usage_key_tpm :
  Router.usage_key Router.TPM "r1" "gpt-4" "2024-05-01-10-30"
  = Some "global_router:r1:gpt-4:tpm:2024-05-01-10-30".
Proof. vm_compute. reflexivity. Qed.

Example usage_key_rpd :
  Router.usage_key Router.RPD "r1" "gpt-4" "2024-05-01"
  = Some "global_router:r1:gpt-4:rpd:2024-05-01".
Proof. vm_compute. reflexivity. Qed.

(** C3: for every router id, model and bucket, each of the four templates
    formats to [global_router:{id}:{model}:{kind}:{bucket}] with kind tpm,
    rpm, tpd or rpd; given both a minute and a day identifier, the tpm and
    rpm keys take the minute and the tpd and rpd keys the day, and a
    template given only the other identifier produces no key. *)
Theorem usage_key_scheme (e : Router.RouterCacheEnum)
    (id model current_minute current_day : string) :
  let bucket :=
    match e with
    | Router.TPM | Router.RPM => current_minute
    | Router.TPD | Router.RPD => current_day
    end in
  let other_field :=
    match e with
    | Router.TPM | Router.RPM => "current_day"
    | Router.TPD | Router.RPD => "current_minute"
    end in
  Router.usage_key e id model bucket
  = Some (Router.key_scheme Router.cache_scope id model (Router.window_kind e) bucket)
  ∧ PyStr.format (Router.RouterCacheEnum_value e)
      (<["current_minute" := current_minute]>
         (<["current_day" := current_day]> (<["model" := model]> {["id" := id]})))
    = Some (Router.key_scheme "global_router" id model (Router.window_kind e) bucket)
  ∧ PyStr.format (Router.RouterCacheEnum_value e)
      (<[other_field := bucket]> (<["model" := model]> {["id" := id]}))
    = None.
Proof.
  assert (Hnil : ∀ scope kind b : string,
            Some (Router.key_scheme scope id model kind (b +:+ ""))
            = Some (Router.key_scheme scope id model kind b))
    by (intros; by rewrite string_app_nil_r).
  destruct e; cbv zeta; repeat split;
    try (rewrite <- Hnil; vm_compute; reflexivity);
    vm_compute; reflexivity.
Qed.

(** ** Router errors *)

(** C4: when the candidate set of a model group is empty the call fails with
    the router's no-deployments error; the error holds the requested model,
    the cooldown list and the cooldown time it was raised with, and its
    message starts with (so contains) "No deployments available for
    selected model".  A non-empty candidate set passes. *)
Theorem no_deployments_error `{Router.PyRender} {D : Type} (model : string)
    (cooldown_time : PrimFloat.float) (enable_pre_call_checks : bool)
    (cooldown_list : list Py.value) :
  let err :=
    Router.RouterRateLimitError_init model cooldown_time enable_pre_call_checks
      cooldown_list in
  Router.require_candidates (D := D) model cooldown_time enable_pre_call_checks
    cooldown_list [] = inl err
  ∧ Router.rle_model err = model
  ∧ Router.rle_cooldown_list err = cooldown_list
  ∧ Router.rle_cooldown_time err = cooldown_time
  ∧ PyStr.startswith (Router.rle_message err)
      "No deployments available for selected model" = true
  ∧ PyStr.contains (Router.rle_message err)
      "No deployments available for selected model"
  ∧ PyStr.contains (Router.rle_message err) model
  ∧ ∀ (c : D) cs,
      Router.require_candidates model cooldown_time enable_pre_call_checks
        cooldown_list (c :: cs) = inr (c :: cs).
Proof.
  cbv zeta. split_and!; try done.
  - apply contains_prefix.
  - exists (Router.RouterErrors_value Router.no_deployments_available
            +:+ ", Try again in " +:+ Router.str_float cooldown_time
            +:+ " seconds. Passed model="),
      (". pre-call-checks=" +:+ PyStr.str_bool enable_pre_call_checks
       +:+ ", cooldown_list=" +:+ Router.str_list cooldown_list).
    unfold Router.RouterRateLimitError_init. cbn [Router.rle_message].
    by rewrite !string_app_assoc.
Qed.

(** ** Task statistics *)

Section TaskStats.
Import Debug.

Lemma Counter_total_incr (name : string) (counter : gmap string nat) :
  Counter_total (Counter_incr name counter) = S (Counter_total counter).
Proof.
  unfold Counter_total, Counter_incr.
  destruct (counter !! name) as [n|] eqn:Hn; simpl.
  - rewrite <- insert_delete_eq.
    rewrite map_fold_insert_L; [| intros; lia | apply lookup_delete_eq].
    rewrite (map_fold_delete_L _ _ name n counter); [lia | intros; lia | done].
  - rewrite map_fold_insert_L; [lia | intros; lia | done].
Qed.

(** The loop adds one count per task it visits, and visits tasks until the
    index reaches the ceiling. *)
Lemma count_tasks_total (active_tasks : list Task) :
  ∀ (idx : nat) (counter : gmap string nat),
    Counter_total (count_tasks idx active_tasks counter)
    = (Counter_total counter
       + length active_tasks `min` (MAX_TASKS_TO_CHECK - idx))%nat.
Proof.
  induction active_tasks as [|task rest IH]; intros idx counter;
    cbn [count_tasks length].
  - lia.
  - destruct (Nat.leb_spec MAX_TASKS_TO_CHECK idx) as [Hge|Hlt].
    + lia.
    + rewrite IH, Counter_total_incr. lia.
Qed.

Example stats_small :
  get_active_tasks_stats
    [Examples.named_task "serve" false; Examples.named_task "poll" true; Examples.named_task "serve" false;
     {| done := false;
        get_coro := {| __qualname__ := Some ""; __name__ := None; repr := "<gen>" |} |}]
  = {| total_active_tasks := 3; by_name := {["serve" := 2%nat; "<gen>" := 1%nat]} |}.
Proof. vm_compute. reflexivity. Qed.

(** One task past the ceiling: it is counted in the total and in no name. *)
Example stats_over_ceiling :
  get_active_tasks_stats (replicate (S MAX_TASKS_TO_CHECK) (Examples.named_task "serve" false))
  = {| total_active_tasks := S MAX_TASKS_TO_CHECK;
       by_name := {["serve" := MAX_TASKS_TO_CHECK]} |}.
Proof. vm_compute. reflexivity. Qed.

(** C5: [get_active_tasks_stats] inspects at most 5000 tasks: the counts in
    [by_name] sum to the smaller of the number of active (not done) tasks
    and 5000, while [total_active_tasks] is the full number of active
    tasks. *)
Theorem active_tasks_stats_ceiling (all_tasks : list Task) :
  let active_tasks := filter (λ t, done t = false) all_tasks in
  let stats := get_active_tasks_stats all_tasks in
  Counter_total (by_name stats) = (length active_tasks `min` 5000)%nat
  ∧ total_active_tasks stats = length active_tasks.
Proof.
  cbv zeta. unfold get_active_tasks_stats. cbn [by_name total_active_tasks].
  split; [|done].
  rewrite count_tasks_total. unfold Counter_total at 1. rewrite map_fold_empty.
  change MAX_TASKS_TO_CHECK with 5000%nat. lia.
Qed.

End TaskStats.

(** ** Retry and allowed-fails policies *)

Section Policies.
Import Py Router.

Example retries_field_timeout : retries_field Timeout = Some "TimeoutErrorRetries".
Proof. vm_compute. reflexivity. Qed.

Example retries_field_internal :
  retries_field InternalServerError = Some "InternalServerErrorRetries".
Proof. vm_compute. reflexivity. Qed.

Example allowed_fails_field_rate_limit :
  allowed_fails_field RateLimit = Some "RateLimitErrorAllowedFails".
Proof. vm_compute. reflexivity. Qed.

Lemma RetryPolicy_fields_NoDup : NoDup (field_names RetryPolicy_cls).
Proof. apply (bool_decide_unpack _). by vm_compute. Qed.

Lemma AllowedFailsPolicy_fields_NoDup : NoDup (field_names AllowedFailsPolicy_cls).
Proof. apply (bool_decide_unpack _). by vm_compute. Qed.

Lemma retries_field_declared (k : ErrorKind) (r : string) :
  retries_field k = Some r →
  Field r (TOptional TInt) (Some VNone) ∈ fields RetryPolicy_cls.
Proof.
  destruct k; vm_compute; intros [= <-];
    repeat first [apply list_elem_of_here | apply list_elem_of_further].
Qed.

Lemma allowed_fails_field_declared (k : ErrorKind) (a : string) :
  allowed_fails_field k = Some a →
  Field a (TOptional TInt) (Some VNone) ∈ fields AllowedFailsPolicy_cls.
Proof.
  destruct k; vm_compute; intros [= <-];
    repeat first [apply list_elem_of_here | apply list_elem_of_further].
Qed.

Lemma classified_kind_fields (k : ErrorKind) :
  k ≠ Other → is_Some (retries_field k) ∧ is_Some (allowed_fails_field k).
Proof. destruct k; try congruence; intros _; split; vm_compute; eauto. Qed.

(** C2 as stated fails at the catch-all kind: neither policy has a field for
    [Other], and a keyword that would name one is dropped. *)
Lemma other_kind_has_no_policy_field :
  ¬ (∀ k : ErrorKind, is_Some (retries_field k) ∧ is_Some (allowed_fails_field k))
  ∧ BaseModel_init (H := strict_validate) RetryPolicy_cls
      {["OtherErrorRetries" := VInt 3]}
    = BaseModel_init (H := strict_validate) RetryPolicy_cls ∅
  ∧ BaseModel_init (H := strict_validate) AllowedFailsPolicy_cls
      {["OtherErrorAllowedFails" := VInt 3]}
    = BaseModel_init (H := strict_validate) AllowedFailsPolicy_cls ∅.
Proof.
  split_and!.
  - intros Hall. destruct (Hall Other) as [[r Hr] _]. vm_compute in Hr. done.
  - rewrite <- insert_empty. apply BaseModel_init_ignores; [done|].
    apply (bool_decide_unpack _). by vm_compute.
  - rewrite <- insert_empty. apply BaseModel_init_ignores; [done|].
    apply (bool_decide_unpack _). by vm_compute.
Qed.

Context `{Pydantic}.
Hypothesis validate_optional_int :
  ∀ n, validate (TOptional TInt) (VInt n) = Some (VInt n).

(** C2 (amended): each of the six classified kinds (BadRequest,
    Authentication, Timeout, RateLimit, ContentPolicyViolation,
    InternalServerError) has a field in [RetryPolicy] and a field in
    [AllowedFailsPolicy], different kinds have different fields, an
    unconfigured policy holds [None] in each of them, and configuring the
    field of one kind sets that field and no other.  The catch-all kind has
    no field in either policy, and no keyword configures one: the policies
    ignore keywords that name no field. *)
Theorem classified_kinds_configurable :
  (∀ k, k ≠ Other →
     ∃ r a, retries_field k = Some r ∧ allowed_fails_field k = Some a
            ∧ declares RetryPolicy_cls r ∧ declares AllowedFailsPolicy_cls a)
  ∧ (∀ k1 k2, k1 ≠ k2 →
       (is_Some (retries_field k1) → retries_field k1 ≠ retries_field k2)
       ∧ (is_Some (allowed_fails_field k1) →
          allowed_fails_field k1 ≠ allowed_fails_field k2))
  ∧ (∃ o, BaseModel_init RetryPolicy_cls ∅ = Some o
          ∧ ∀ k r, retries_field k = Some r → o !! r = Some VNone)
  ∧ (∃ o, BaseModel_init AllowedFailsPolicy_cls ∅ = Some o
          ∧ ∀ k a, allowed_fails_field k = Some a → o !! a = Some VNone)
  ∧ (∀ k r n data o, retries_field k = Some r →
       BaseModel_init RetryPolicy_cls data = Some o →
       BaseModel_init RetryPolicy_cls (<[r := VInt n]> data)
       = Some (<[r := VInt n]> o))
  ∧ (∀ k a n data o, allowed_fails_field k = Some a →
       BaseModel_init AllowedFailsPolicy_cls data = Some o →
       BaseModel_init AllowedFailsPolicy_cls (<[a := VInt n]> data)
       = Some (<[a := VInt n]> o))
  ∧ retries_field Other = None
  ∧ allowed_fails_field Other = None
  ∧ (∀ name v data, ¬ declares RetryPolicy_cls name →
       BaseModel_init RetryPolicy_cls (<[name := v]> data)
       = BaseModel_init RetryPolicy_cls data)
  ∧ (∀ name v data, ¬ declares AllowedFailsPolicy_cls name →
       BaseModel_init AllowedFailsPolicy_cls (<[name := v]> data)
       = BaseModel_init AllowedFailsPolicy_cls data).
Proof.
  split_and!.
  - intros k Hk. destruct (classified_kind_fields k Hk) as [[r Hr] [a Ha]].
    exists r, a. split_and!; [done | done | |].
    + apply (list_elem_of_fmap_2 f_name _ _ (retries_field_declared k r Hr)).
    + apply (list_elem_of_fmap_2 f_name _ _ (allowed_fails_field_declared k a Ha)).
  - intros k1 k2 Hne. split; intros [x Hx]; revert Hx;
      destruct k1, k2; try congruence; vm_compute; congruence.
  - destruct (BaseModel_init_is_Some RetryPolicy_cls ∅) as [o Ho].
    { repeat constructor; by eexists. }
    exists o. split; [done|]. intros k r Hr.
    pose proof (BaseModel_init_lookup _ _ _ _ RetryPolicy_fields_NoDup
                  (retries_field_declared k r Hr) Ho) as Hlook.
    cbn [f_name] in Hlook. by rewrite Hlook.
  - destruct (BaseModel_init_is_Some AllowedFailsPolicy_cls ∅) as [o Ho].
    { repeat constructor; by eexists. }
    exists o. split; [done|]. intros k a Ha.
    pose proof (BaseModel_init_lookup _ _ _ _ AllowedFailsPolicy_fields_NoDup
                  (allowed_fails_field_declared k a Ha) Ho) as Hlook.
    cbn [f_name] in Hlook. by rewrite Hlook.
  - intros k r n data o Hr Ho.
    by apply (BaseModel_init_configure RetryPolicy_cls data o
                (Field r (TOptional TInt) (Some VNone)));
      [| apply RetryPolicy_fields_NoDup | apply (retries_field_declared k) | |].
  - intros k a n data o Ha Ho.
    by apply (BaseModel_init_configure AllowedFailsPolicy_cls data o
                (Field a (TOptional TInt) (Some VNone)));
      [| apply AllowedFailsPolicy_fields_NoDup
       | apply (allowed_fails_field_declared k) | |].
  - vm_compute. reflexivity.
  - vm_compute. reflexivity.
  - intros name v data Hname. by apply BaseModel_init_ignores.
  - intros name v data Hname. by apply BaseModel_init_ignores.
Qed.

End Policies.

(** A run of C2's theorem with the strict validator: three timeout retries
    are configured, and the rate-limit field keeps its default. *)
Lemma classified_kinds_configurable_strict :
  ∃ o,
    Py.BaseModel_init (H := Py.strict_validate) Router.RetryPolicy_cls
      {["TimeoutErrorRetries" := Py.VInt 3]} = Some o
    ∧ o !! "TimeoutErrorRetries" = Some (Py.VInt 3)
    ∧ o !! "RateLimitErrorRetries" = Some Py.VNone.
Proof.
  destruct (classified_kinds_configurable (H := Py.strict_validate) (λ n, eq_refl))
    as (_ & _ & (o & Ho & Hdef) & _ & Hset & _).
  exists (<["TimeoutErrorRetries" := Py.VInt 3]> o). split_and!.
  - rewrite <- insert_empty.
    apply (Hset Router.Timeout _ 3%Z ∅ o); [by vm_compute | exact Ho].
  - apply lookup_insert_eq.
  - rewrite lookup_insert_ne by done. apply (Hdef Router.RateLimit). by vm_compute.
Defined.

(** ** ModelInfo and Deployment *)

(** [str] is injective on integers: the digits read back as the number. *)
Lemma str_int_inj (m n : Z) : PyStr.str_int m = PyStr.str_int n → m = n.
Proof.
  assert (Hsafe : ∀ z, Z.to_int z ≠ Decimal.Pos Decimal.Nil
                       ∧ Z.to_int z ≠ Decimal.Neg Decimal.Nil).
  { intros [|p|p]; simpl; split; try discriminate;
      intros [= Hp]; by apply Unsigned.to_uint_nonnil in Hp. }
  unfold PyStr.str_int. intros Heq.
  apply (f_equal NilZero.int_of_string) in Heq.
  destruct (Hsafe m), (Hsafe n). rewrite !NilZero.isi in Heq by done.
  injection Heq as Heq. apply (f_equal Z.of_int) in Heq.
  by rewrite !DecimalZ.of_to in Heq.
Qed.

Lemma counting_uuid4_inj (i j : nat) :
  Py.uuid4_str (Uuid4 := Py.counting_uuid4) i
  = Py.uuid4_str (Uuid4 := Py.counting_uuid4) j → i = j.
Proof.
  unfold Py.uuid4_str, Py.counting_uuid4. intros Heq.
  apply String.app_inj, str_int_inj in Heq. lia.
Qed.

Lemma is_None_false (v : Py.value) : Py.is_None v = false ↔ v ≠ Py.VNone.
Proof. destruct v; simpl; split; congruence. Qed.

Lemma is_None_true (v : Py.value) : Py.is_None v = true ↔ v = Py.VNone.
Proof. destruct v; simpl; split; congruence. Qed.

Section ModelInfoFacts.
Import Py Router.
Context `{Pydantic, Uuid4}.

Lemma ModelInfo_fields_NoDup : NoDup (field_names ModelInfo_cls).
Proof. apply (bool_decide_unpack _). by vm_compute. Qed.

(** The instance holds the validated [id] it was initialised with. *)
Lemma ModelInfo_id_validated (id v : value) (params o : gmap string value) :
  validate (TOptional TStr) id = Some v →
  BaseModel_init ModelInfo_cls (<["id" := id]> params) = Some o →
  o !! "id" = Some v.
Proof.
  intros Hv. unfold BaseModel_init.
  destruct (init_fields _ _) as [o'|] eqn:Ho'; [|done]. simpl. intros [= <-].
  apply lookup_union_Some_l.
  destruct (init_fields_declared _ _ o' (Field "id" (TOptional TStr) None)
              ModelInfo_fields_NoDup (list_elem_of_here _ _) Ho') as (w & Hw & Hlook).
  unfold init_field in Hw. cbn [f_name f_type] in Hw, Hlook.
  rewrite lookup_insert_eq in Hw. by rewrite Hlook, <- Hw.
Qed.

(** With no other keyword, a valid [id] is all the constructor needs. *)
Lemma ModelInfo_only_id (id v : value) :
  validate (TOptional TStr) id = Some v →
  is_Some (BaseModel_init ModelInfo_cls (<["id" := id]> ∅)).
Proof.
  intros Hv. unfold BaseModel_init. cbn [fields ModelInfo_cls init_fields].
  unfold init_field. cbn [f_name f_type f_default].
  rewrite lookup_insert_eq, Hv.
  rewrite !lookup_insert_ne, !lookup_empty by done. simpl. eauto.
Qed.

Hypothesis validate_optional_str :
  ∀ s, validate (TOptional TStr) (VStr s) = Some (VStr s).
Hypothesis uuid4_fresh : ∀ i j, uuid4_str i = uuid4_str j → i = j.

(** C7: a constructed [ModelInfo] holds its [id] as a string: the string of
    a fresh draw of [uuid4] when no id is given, the decimal string of an
    integer id, a string id as it is; with no other keyword each of these
    constructions succeeds; and two instances built without an id, one after
    the other, hold different ids. *)
Theorem ModelInfo_id_is_str :
  (∀ params d o d',
     ModelInfo_init VNone params d = (Some o, d') →
     o !! "id" = Some (VStr (uuid4_str d)) ∧ d' = S d)
  ∧ (∀ n params d o d',
       ModelInfo_init (VInt n) params d = (Some o, d') →
       o !! "id" = Some (VStr (PyStr.str_int n)) ∧ d' = d)
  ∧ (∀ s params d o d',
       ModelInfo_init (VStr s) params d = (Some o, d') →
       o !! "id" = Some (VStr s) ∧ d' = d)
  ∧ (∀ d, is_Some (ModelInfo_init VNone ∅ d).1)
  ∧ (∀ n d, is_Some (ModelInfo_init (VInt n) ∅ d).1)
  ∧ (∀ s d, is_Some (ModelInfo_init (VStr s) ∅ d).1)
  ∧ (∀ params1 params2 d1 d1' d2 d2' o1 o2,
       ModelInfo_init VNone params1 d1 = (Some o1, d1') →
       d1' ≤ d2 →
       ModelInfo_init VNone params2 d2 = (Some o2, d2') →
       o1 !! "id" ≠ o2 !! "id").
Proof.
  assert (Hnone : ∀ params d o d',
            ModelInfo_init VNone params d = (Some o, d') →
            o !! "id" = Some (VStr (uuid4_str d)) ∧ d' = S d).
  { intros params d o d'. unfold ModelInfo_init. intros [= Ho <-].
    split; [|done]. by eapply ModelInfo_id_validated. }
  split_and!.
  - exact Hnone.
  - intros n params d o d'. unfold ModelInfo_init. intros [= Ho <-].
    split; [|done]. by eapply ModelInfo_id_validated.
  - intros s params d o d'. unfold ModelInfo_init. intros [= Ho <-].
    split; [|done]. by eapply ModelInfo_id_validated.
  - intros d. by eapply ModelInfo_only_id.
  - intros n d. by eapply ModelInfo_only_id.
  - intros s d. by eapply ModelInfo_only_id.
  - intros params1 params2 d1 d1' d2 d2' o1 o2 H1 Hle H2.
    apply Hnone in H1 as [-> ->]. apply Hnone in H2 as [-> ->].
    intros [= Heq]. apply uuid4_fresh in Heq. lia.
Qed.

End ModelInfoFacts.

(** A run of C7's theorem with the strict validator and the counting source
    of identifiers. *)
Lemma ModelInfo_id_is_str_run :
  (∃ o, Router.ModelInfo_init (H := Py.strict_validate) (H0 := Py.counting_uuid4)
          (Py.VInt 7) ∅ 0 = (Some o, 0%nat)
        ∧ o !! "id" = Some (Py.VStr "7"))
  ∧ (∃ o1 o2,
       Router.ModelInfo_init (H := Py.strict_validate) (H0 := Py.counting_uuid4)
         Py.VNone ∅ 0 = (Some o1, 1%nat)
       ∧ Router.ModelInfo_init (H := Py.strict_validate) (H0 := Py.counting_uuid4)
           Py.VNone ∅ 1 = (Some o2, 2%nat)
       ∧ o1 !! "id" = Some (Py.VStr "uuid-0")
       ∧ o2 !! "id" = Some (Py.VStr "uuid-1")
       ∧ o1 !! "id" ≠ o2 !! "id").
Proof.
  destruct (ModelInfo_id_is_str (H := Py.strict_validate) (H0 := Py.counting_uuid4)
              (λ s, eq_refl) counting_uuid4_inj)
    as (Hnone & Hint & _ & Hsome_none & Hsome_int & _ & Hfresh).
  split.
  - destruct (Hsome_int 7%Z 0%nat) as [o Ho].
    destruct (Router.ModelInfo_init (Py.VInt 7) ∅ 0) as [r d'] eqn:E.
    cbn [fst] in Ho. subst r. destruct (Hint _ _ _ _ _ E) as [Hid ->].
    exists o. split; [done | exact Hid].
  - destruct (Hsome_none 0%nat) as [o1 Ho1], (Hsome_none 1%nat) as [o2 Ho2].
    destruct (Router.ModelInfo_init Py.VNone ∅ 0) as [r1 d1] eqn:E1.
    destruct (Router.ModelInfo_init Py.VNone ∅ 1) as [r2 d2] eqn:E2.
    cbn [fst] in Ho1, Ho2. subst r1 r2.
    destruct (Hnone _ _ _ _ E1) as [Hid1 ->], (Hnone _ _ _ _ E2) as [Hid2 ->].
    exists o1, o2. split_and!; [done | done | exact Hid1 | exact Hid2 |].
    by apply (Hfresh ∅ ∅ 0%nat 1%nat 1%nat 2%nat).
Defined.

Section DeploymentFacts.
Import Py Router.

(** The loop writes the keys whose parameter is set ... *)
Lemma copy_special_set (litellm_params : gmap string value) (keys : list string) :
  ∀ (model_info : gmap string value) (key : string),
    key ∈ keys → getattr litellm_params key VNone ≠ VNone →
    foldl (copy_special_param litellm_params) model_info keys !! key
    = Some (getattr litellm_params key VNone).
Proof.
  induction keys as [|k keys IH] using rev_ind; intros model_info key Hin Hset.
  - by apply elem_of_nil in Hin.
  - rewrite foldl_app. cbn [foldl]. unfold copy_special_param at 1.
    destruct (decide (key = k)) as [->|Hne].
    + apply is_None_false in Hset. rewrite Hset.
      unfold setattr. by rewrite lookup_insert_eq.
    + apply elem_of_app in Hin as [Hin|Hin%list_elem_of_singleton]; [|done].
      destruct (is_None (getattr litellm_params k VNone)); [by apply IH|].
      unfold setattr. rewrite lookup_insert_ne by done. by apply IH.
Qed.

(** ... and no other. *)
Lemma copy_special_keep (litellm_params : gmap string value) (keys : list string) :
  ∀ (model_info : gmap string value) (key : string),
    key ∉ keys ∨ getattr litellm_params key VNone = VNone →
    foldl (copy_special_param litellm_params) model_info keys !! key
    = model_info !! key.
Proof.
  induction keys as [|k keys IH] using rev_ind; intros model_info key Hkeep.
  - done.
  - rewrite foldl_app. cbn [foldl]. unfold copy_special_param at 1.
    assert (key ∉ keys ∨ getattr litellm_params key VNone = VNone) as Hkeep'.
    { destruct Hkeep as [Hnot|Hnone]; [left|by right].
      intros Hin. apply Hnot, elem_of_app. by left. }
    destruct (is_None (getattr litellm_params k VNone)) eqn:Hk; [by apply IH|].
    unfold setattr. rewrite lookup_insert_ne; [by apply IH|].
    intros ->. apply is_None_false in Hk.
    destruct Hkeep as [Hnot|Hnone]; [|done].
    apply Hnot, elem_of_app. right. by apply list_elem_of_singleton.
Qed.

Context `{Pydantic, Uuid4}.

(** C8: in a constructed [Deployment], every special pricing parameter that
    [litellm_params] holds with a value other than [None] is in [model_info]
    under the same name with that value; a parameter that is [None] or
    missing there, and every other attribute, is in [model_info] as the
    given model info (the object passed, or the one built from the
    dictionary or from nothing) had it. *)
Theorem Deployment_copies_special_params (name : string)
    (litellm_params : gmap string value) (model_info : ModelInfoArg)
    (params : gmap string value) (d d' : nat) (dep : Deployment) :
  Deployment_init name litellm_params model_info params d = (Some dep, d') →
  ∃ given,
    Deployment_model_info model_info d = (Some given, d')
    ∧ (∀ key, key ∈ SPECIAL_MODEL_INFO_PARAMS →
         getattr litellm_params key VNone ≠ VNone →
         Router.model_info dep !! key = Some (getattr litellm_params key VNone))
    ∧ (∀ key, key ∈ SPECIAL_MODEL_INFO_PARAMS →
         getattr litellm_params key VNone = VNone →
         Router.model_info dep !! key = given !! key)
    ∧ (∀ key, key ∉ SPECIAL_MODEL_INFO_PARAMS →
         Router.model_info dep !! key = given !! key)
    ∧ Router.litellm_params dep = litellm_params
    ∧ Router.model_name dep = name.
Proof.
  unfold Deployment_init.
  destruct (Deployment_model_info model_info d) as [[given|] d0];
    cbn [mbind option_bind]; [|done].
  intros [= <- <-]. exists given.
  cbn [Router.model_info Router.litellm_params Router.model_name].
  split_and!; try done.
  - intros key Hin Hset.
    by apply (copy_special_set litellm_params SPECIAL_MODEL_INFO_PARAMS given key).
  - intros key _ Hnone.
    apply (copy_special_keep litellm_params SPECIAL_MODEL_INFO_PARAMS given key).
    by right.
  - intros key Hnot.
    apply (copy_special_keep litellm_params SPECIAL_MODEL_INFO_PARAMS given key).
    by left.
Qed.

End DeploymentFacts.

(** A run of C8's theorem: the input price of the parameters is copied over
    the one of the dictionary, the output price of the dictionary stays. *)
Lemma Deployment_copies_special_params_run :
  ∃ dep,
    Router.Deployment_init (H := Py.strict_validate) (H0 := Py.counting_uuid4)
      "gpt-4" Examples.litellm_params (Router.ModelInfoDict Examples.model_info) ∅ 0
    = (Some dep, 0%nat)
    ∧ Router.model_info dep !! "input_cost_per_token" = Some (Py.VFloat 0.5)
    ∧ Router.model_info dep !! "output_cost_per_token" = Some (Py.VFloat 0.25)
    ∧ Router.model_info dep !! "id" = Some (Py.VStr "7").
Proof.
  destruct (BaseModel_init_is_Some (H := Py.strict_validate) Router.ModelInfo_cls
              (<["id" := Py.VStr (PyStr.str_int 7)]> (delete "id" Examples.model_info)))
    as [given Hgiven].
  { repeat constructor; vm_compute; eauto. }
  assert (Router.Deployment_model_info (H := Py.strict_validate)
            (H0 := Py.counting_uuid4) (Router.ModelInfoDict Examples.model_info) 0
          = (Some given, 0%nat)) as Hinfo.
  { unfold Router.Deployment_model_info, Router.ModelInfo_of_dict.
    change (Py.dict_get Examples.model_info "id") with (Py.VInt 7).
    unfold Router.ModelInfo_init. by rewrite Hgiven. }
  eexists. split.
  { unfold Router.Deployment_init. rewrite Hinfo. reflexivity. }
  edestruct (Deployment_copies_special_params (H := Py.strict_validate)
               (H0 := Py.counting_uuid4) "gpt-4" Examples.litellm_params
               (Router.ModelInfoDict Examples.model_info) ∅ 0%nat 0%nat)
    as (given' & Hgiven' & Hset & Hkeep & Hother & _).
  { unfold Router.Deployment_init. rewrite Hinfo. reflexivity. }
  rewrite Hinfo in Hgiven'. injection Hgiven' as <-.
  split_and!.
  - rewrite (Hset "input_cost_per_token");
      [reflexivity | apply (bool_decide_unpack _); by vm_compute | done].
  - rewrite (Hkeep "output_cost_per_token");
      [| apply (bool_decide_unpack _); by vm_compute | reflexivity].
    rewrite (BaseModel_init_lookup_extra (H := Py.strict_validate)
               Router.ModelInfo_cls _ _
               "output_cost_per_token" eq_refl
               ltac:(apply (bool_decide_unpack _); by vm_compute) Hgiven).
    reflexivity.
  - rewrite (Hother "id"); [| apply (bool_decide_unpack _); by vm_compute].
    pose proof (BaseModel_init_lookup (H := Py.strict_validate) _ _ _
                  (Py.Field "id" (Py.TOptional Py.TStr) None)
                  ModelInfo_fields_NoDup (list_elem_of_here _ _) Hgiven) as Hid.
    cbn [Py.f_name] in Hid. rewrite Hid. reflexivity.
Defined.

(** ** ModelGroupInfo *)

Section ModelGroupInfoFacts.
Import Py Router.

(** The names among [hints] annotated [bool]. *)
Local Abbreviation bool_names hints :=
  ((filter (λ h : string * FieldType, is_bool_type h.2 = true) hints).*1).

(** What the loop leaves in [data]: [False] under every [bool] field that
    was [None] or missing, and everything else as it was. *)
Lemma default_bool_fields_lookup (hints : list (string * FieldType)) :
  ∀ (data : gmap string value) (k : string),
    foldl default_bool_field data hints !! k
    = if bool_decide (k ∈ bool_names hints) && is_None (dict_get data k)
      then Some (VBool false) else data !! k.
Proof.
  induction hints as [|[name ty] hints IH]; intros data k; cbn [foldl].
  - rewrite bool_decide_eq_false_2; [done | apply not_elem_of_nil].
  - rewrite IH. rewrite filter_cons. cbn [snd default_bool_field].
    destruct (is_bool_type ty) eqn:Hty; cbn [andb].
    + rewrite decide_True by done. cbn [fmap list_fmap fst].
      destruct (decide (k = name)) as [->|Hne].
      * rewrite (bool_decide_eq_true_2 (name ∈ name :: _)) by apply list_elem_of_here.
        cbn [andb]. destruct (is_None (dict_get data name)) eqn:Hnone.
        -- unfold dict_get. rewrite lookup_insert_eq. cbn [default is_None].
           by rewrite andb_false_r.
        -- rewrite Hnone, andb_false_r. done.
      * assert (bool_decide (k ∈ name :: bool_names hints)
                = bool_decide (k ∈ bool_names hints)) as ->.
        { apply bool_decide_ext. rewrite elem_of_cons. tauto. }
        destruct (is_None (dict_get data name)); [|done].
        unfold dict_get. by rewrite !lookup_insert_ne.
    + by rewrite decide_False by done.
Qed.

Lemma ModelGroupInfo_bool_fields_eq :
  ModelGroupInfo_bool_fields
  = ["supports_parallel_function_calling"; "supports_vision"; "supports_web_search";
     "supports_url_context"; "supports_reasoning"; "supports_function_calling"].
Proof. vm_compute. reflexivity. Qed.

Lemma ModelGroupInfo_data_lookup (data : gmap string value) (k : string) :
  ModelGroupInfo_data data !! k
  = if bool_decide (k ∈ ModelGroupInfo_bool_fields) && is_None (dict_get data k)
    then Some (VBool false) else data !! k.
Proof. apply default_bool_fields_lookup. Qed.

(** For the loop, a flag given as [None] or [False] or not given is the same. *)
Lemma ModelGroupInfo_data_None (data : gmap string value) (f : string) :
  f ∈ ModelGroupInfo_bool_fields →
  ModelGroupInfo_data (<[f := VNone]> data) = ModelGroupInfo_data (<[f := VBool false]> data)
  ∧ ModelGroupInfo_data (delete f data) = ModelGroupInfo_data (<[f := VBool false]> data).
Proof.
  intros Hf. split; apply map_eq; intros k; rewrite !ModelGroupInfo_data_lookup;
    unfold dict_get; destruct (decide (k = f)) as [->|Hne].
  - rewrite !lookup_insert_eq. cbn [default is_None].
    by rewrite bool_decide_eq_true_2.
  - by rewrite !lookup_insert_ne.
  - rewrite lookup_delete_eq, lookup_insert_eq. cbn [default is_None].
    by rewrite bool_decide_eq_true_2.
  - by rewrite lookup_delete_ne, lookup_insert_ne.
Qed.

Lemma ModelGroupInfo_fields_NoDup : NoDup (field_names ModelGroupInfo_cls).
Proof. apply (bool_decide_unpack _). by vm_compute. Qed.

Lemma ModelGroupInfo_bool_field_declared (f : string) :
  f ∈ ModelGroupInfo_bool_fields →
  Field f TBool (Some (VBool false)) ∈ fields ModelGroupInfo_cls.
Proof.
  rewrite ModelGroupInfo_bool_fields_eq. rewrite !elem_of_cons, elem_of_nil.
  intros Hf. repeat (destruct Hf as [Hf|Hf]; [subst f; vm_compute;
    repeat first [apply list_elem_of_here | apply list_elem_of_further] |]).
  done.
Qed.

Context `{Pydantic}.
Hypothesis validate_bool : ∀ b, validate TBool (VBool b) = Some (VBool b).
Hypothesis validate_bool_sound :
  ∀ v w, validate TBool v = Some w → ∃ b, w = VBool b.

(** C9: the six fields of [ModelGroupInfo] annotated [bool] are the
    capability flags; a flag given as [None] or not given never makes the
    construction fail, since the constructor then behaves as if [False] had
    been given; in a constructed [ModelGroupInfo] every flag is a boolean,
    and [False] when it was given as [None] or not given. *)
Theorem ModelGroupInfo_flags_definite :
  ModelGroupInfo_bool_fields
  = ["supports_parallel_function_calling"; "supports_vision"; "supports_web_search";
     "supports_url_context"; "supports_reasoning"; "supports_function_calling"]
  ∧ (∀ data f, f ∈ ModelGroupInfo_bool_fields →
       ModelGroupInfo_init (<[f := VNone]> data)
       = ModelGroupInfo_init (<[f := VBool false]> data)
       ∧ ModelGroupInfo_init (delete f data)
         = ModelGroupInfo_init (<[f := VBool false]> data))
  ∧ (∀ data f, f ∈ ModelGroupInfo_bool_fields →
       dict_get data f = VNone →
       init_field (ModelGroupInfo_data data) (Field f TBool (Some (VBool false)))
       = Some (VBool false))
  ∧ (∀ data o f, ModelGroupInfo_init data = Some o →
       f ∈ ModelGroupInfo_bool_fields →
       (∃ b, o !! f = Some (VBool b))
       ∧ (dict_get data f = VNone → o !! f = Some (VBool false))).
Proof.
  assert (Hfield : ∀ data f, f ∈ ModelGroupInfo_bool_fields →
            dict_get data f = VNone →
            init_field (ModelGroupInfo_data data) (Field f TBool (Some (VBool false)))
            = Some (VBool false)).
  { intros data f Hf Hnone. unfold init_field. cbn [f_name f_type f_default].
    rewrite ModelGroupInfo_data_lookup, Hnone.
    rewrite bool_decide_eq_true_2 by done. cbn [andb is_None].
    apply validate_bool. }
  split_and!.
  - apply ModelGroupInfo_bool_fields_eq.
  - intros data f Hf. unfold ModelGroupInfo_init.
    destruct (ModelGroupInfo_data_None data f Hf) as [-> ->]. done.
  - exact Hfield.
  - intros data o f Ho Hf. unfold ModelGroupInfo_init, BaseModel_init in Ho.
    destruct (init_fields _ _) as [o'|] eqn:Ho'; [|done].
    cbn in Ho. injection Ho as <-.
    destruct (init_fields_declared _ _ o' _ ModelGroupInfo_fields_NoDup
                (ModelGroupInfo_bool_field_declared f Hf) Ho') as (v & Hv & Hlook).
    cbn [f_name] in Hlook. rewrite Hlook. split.
    + unfold init_field in Hv. cbn [f_name f_type f_default] in Hv.
      destruct (ModelGroupInfo_data data !! f) as [x|].
      * apply validate_bool_sound in Hv as [b ->]. eauto.
      * injection Hv as <-. eauto.
    + intros Hnone. rewrite (Hfield data f Hf Hnone) in Hv. by injection Hv as <-.
Qed.

End ModelGroupInfoFacts.

Lemma strict_validate_bool_sound (v w : Py.value) :
  Py.strict_validate Py.TBool v = Some w → ∃ b, w = Py.VBool b.
Proof. destruct v; simpl; intros [= <-]; eauto. Qed.

(** A run of C9's theorem: vision is given as [None], reasoning as [True],
    the other flags are not given. *)
Lemma ModelGroupInfo_flags_definite_run :
  ∃ o,
    Router.ModelGroupInfo_init (H := Py.strict_validate) Examples.model_group_data
    = Some o
    ∧ o !! "supports_vision" = Some (Py.VBool false)
    ∧ o !! "supports_web_search" = Some (Py.VBool false)
    ∧ o !! "supports_reasoning" = Some (Py.VBool true).
Proof.
  destruct (BaseModel_init_is_Some (H := Py.strict_validate) Router.ModelGroupInfo_cls
              (Router.ModelGroupInfo_data Examples.model_group_data)) as [o Ho].
  { repeat constructor; vm_compute; eauto. }
  exists o. split; [exact Ho|].
  destruct (ModelGroupInfo_flags_definite (H := Py.strict_validate)
              (λ b, eq_refl) strict_validate_bool_sound) as (Hnames & _ & _ & Hflags).
  split_and!.
  - apply (Hflags _ o "supports_vision" Ho); [|reflexivity].
    rewrite Hnames. repeat first [apply list_elem_of_here | apply list_elem_of_further].
  - apply (Hflags _ o "supports_web_search" Ho); [|reflexivity].
    rewrite Hnames. repeat first [apply list_elem_of_here | apply list_elem_of_further].
  - pose proof (BaseModel_init_lookup (H := Py.strict_validate) _ _ _
                  (Py.Field "supports_reasoning" Py.TBool (Some (Py.VBool false)))
                  ModelGroupInfo_fields_NoDup
                  (ModelGroupInfo_bool_field_declared "supports_reasoning"
                     ltac:(rewrite ModelGroupInfo_bool_fields_eq;
                           repeat first [apply list_elem_of_here
                                        | apply list_elem_of_further]))
                  Ho) as Hlook.
    cbn [Py.f_name] in Hlook. rewrite Hlook. vm_compute. reflexivity.
Defined.

(** ** Fireworks AI: malformed responses *)

Section ResponseFacts.
Import Fireworks.
Context `{Collaborators, Py.Uuid4}.
Context {Messages RequestData : Type}.

(** The tool-call rewriting never fails: it is a total function of the
    choices. *)
Lemma handle_choices_length (cs : list Choices)
    (tools : option (list ChatCompletionToolParam)) (n : nat) :
  length (handle_choices cs tools n).1 = length cs.
Proof.
  revert n. induction cs as [|c cs IH]; intros n; simpl; [done|].
  destruct (_handle_message_content_with_tool_calls _ _ _) as [m n'].
  specialize (IH n'). destruct (handle_choices cs tools n') as [cs' n''].
  simpl in *. by rewrite IH.
Qed.

(** C6: when the body of the raw response does not parse as JSON,
    [transform_response] raises [FireworksAIException] with the status code
    and headers of the response and a message that contains its text, and
    returns no [ModelResponse]; when the body parses, that exception is not
    raised, and a [ModelResponse] is returned whenever one can be built
    from the parsed body.  The call is logged either way. *)
Theorem transform_response_malformed (raw_response : Response)
    (request_data : RequestData) (messages : Messages)
    (tools : option (list ChatCompletionToolParam)) (api_key : option string)
    (st : State (Messages := Messages) (RequestData := RequestData)) :
  let out :=
    transform_response raw_response request_data messages tools api_key st in
  match response_json (text raw_response) with
  | inl e =>
      out.1 = inl (FireworksAIException
                     ("Unable to get json response - " +:+ e
                      +:+ ", Original Response: " +:+ text raw_response)
                     (status_code raw_response) (Some (headers raw_response)))
      ∧ PyStr.contains
          ("Unable to get json response - " +:+ e
           +:+ ", Original Response: " +:+ text raw_response)
          (text raw_response)
      ∧ (∀ response, out.1 ≠ inr response)
      ∧ draws out.2 = draws st
  | inr completion_response =>
      (∀ message code hdrs, out.1 ≠ inl (FireworksAIException message code hdrs))
      ∧ (∀ response, ModelResponse_init completion_response = inr response →
           ∃ response', out.1 = inr response'
             ∧ model response' = (λ m, "fireworks_ai/" +:+ m) <$> model response
             ∧ length (choices response') = length (choices response))
      ∧ (∀ e, ModelResponse_init completion_response = inl e →
           out.1 = inl (OtherException e))
  end
  ∧ ∃ call, post_calls out.2 = post_calls st ++ [call]
            ∧ pc_original_response call = text raw_response.
Proof.
  cbv zeta. unfold transform_response.
  destruct (response_json (text raw_response)) as [e|completion_response].
  - cbn [fst snd]. split; [|by eexists]. split_and!; try done.
    exists ("Unable to get json response - " +:+ e +:+ ", Original Response: "), "".
    by rewrite string_app_nil_r, !string_app_assoc.
  - destruct (ModelResponse_init completion_response) as [e|response] eqn:Hinit.
    + cbn [fst snd]. split; [|by eexists]. split_and!; try done.
      intros e' [= <-]. done.
    + pose proof (handle_choices_length (choices response) tools (draws st)) as Hlen.
      destruct (handle_choices (choices response) tools (draws st)) as [cs n].
      cbn [fst snd] in *. split; [|by eexists]. split_and!; try done.
      intros response' [= <-]. eexists. split; [done|]. by cbn [model choices].
Qed.

End ResponseFacts.

(** ** Fireworks AI: configuration and provider info *)

Section FireworksConfigFacts.
Import Obj FireworksConfig.

Lemma obj_is_None_false (v : obj) : is_None v = false ↔ v ≠ ONone.
Proof. destruct v; simpl; split; congruence. Qed.

(** What a run of the constructor's loop over [keys] leaves in the class. *)
Lemma set_class_attrs_lookup (kwargs : gmap string obj) (keys : list string) :
  ∀ (cls : gmap string obj) (key : string),
    foldl set_class_attr cls ((λ k, (k, dict_get kwargs k)) <$> keys) !! key
    = if bool_decide (key ∈ keys) && negb (is_None (dict_get kwargs key))
      then Some (dict_get kwargs key) else cls !! key.
Proof.
  induction keys as [|k keys IH]; intros cls key; cbn [fmap list_fmap foldl].
  - rewrite bool_decide_eq_false_2; [done | apply not_elem_of_nil].
  - rewrite IH. unfold set_class_attr. cbn [fst snd].
    destruct (decide (key = k)) as [->|Hne].
    + rewrite (bool_decide_eq_true_2 (k ∈ k :: keys)) by apply list_elem_of_here.
      destruct (is_None (dict_get kwargs k)) eqn:Hk; cbn [negb andb].
      * by rewrite andb_false_r.
      * rewrite lookup_insert_eq. by destruct (bool_decide (k ∈ keys)).
    + assert (bool_decide (key ∈ k :: keys) = bool_decide (key ∈ keys)) as ->.
      { apply bool_decide_ext. rewrite elem_of_cons. tauto. }
      destruct (is_None (dict_get kwargs k)); [done|].
      by rewrite lookup_insert_ne.
Qed.

(** X1: [FireworksAIConfig.__init__] writes its arguments on the class, not
    on the instance, and only those that are not [None]: after a
    construction the class holds every argument given, keeps every attribute
    whose argument was left out, and never holds [None] for an argument; so
    a setting made by one construction is still there after a later
    construction that leaves it out. *)
Theorem FireworksAIConfig_init_sticky (kwargs : gmap string obj) (cls : gmap string obj)
    (key : string) :
  FireworksAIConfig_init kwargs cls !! key
  = (if bool_decide (key ∈ init_params) && negb (is_None (dict_get kwargs key))
     then Some (dict_get kwargs key) else cls !! key)
  ∧ (cls !! key ≠ Some ONone → FireworksAIConfig_init kwargs cls !! key ≠ Some ONone)
  ∧ ∀ later : gmap string obj,
      key ∈ init_params → dict_get kwargs key ≠ ONone → dict_get later key = ONone →
      FireworksAIConfig_init later (FireworksAIConfig_init kwargs cls) !! key
      = Some (dict_get kwargs key).
Proof.
  assert (Hlook : ∀ kw c,
            FireworksAIConfig_init kw c !! key
            = if bool_decide (key ∈ init_params) && negb (is_None (dict_get kw key))
              then Some (dict_get kw key) else c !! key)
    by (intros; apply set_class_attrs_lookup).
  split_and!.
  - apply Hlook.
  - intros Hcls. rewrite Hlook.
    destruct (bool_decide _); cbn [andb]; [|done].
    destruct (is_None (dict_get kwargs key)) eqn:Hk; cbn [negb]; [done|].
    apply obj_is_None_false in Hk. congruence.
  - intros later Hkey Hset Hnone. rewrite !Hlook, Hnone.
    rewrite bool_decide_eq_true_2 by done. cbn [is_None negb andb].
    apply obj_is_None_false in Hset. by rewrite Hset.
Qed.

Context `{ModelSupport}.

(** X2: the supported parameters of a model are the fifteen base parameters,
    [tools] exactly when the model supports function calling and
    [tool_choice] exactly when it supports tool choice; no parameter is
    listed twice. *)
Theorem get_supported_openai_params_spec (model param : string) :
  (param ∈ get_supported_openai_params model
   ↔ param ∈ base_supported_params
     ∨ (param = "tools" ∧ supports_function_calling model = true)
     ∨ (param = "tool_choice" ∧ supports_tool_choice model = true))
  ∧ NoDup (get_supported_openai_params model)
  ∧ length base_supported_params = 15%nat.
Proof.
  unfold get_supported_openai_params.
  destruct (supports_function_calling model), (supports_tool_choice model);
    (split_and!;
     [ rewrite ?elem_of_app, ?list_elem_of_singleton; intuition congruence
     | apply (bool_decide_unpack _); by vm_compute
     | done ]).
Qed.

(** *** Tools *)

Lemma transform_tool_idemp (tool tool' : obj) :
  transform_tool tool = Some tool' → transform_tool tool' = Some tool'.
Proof.
  destruct tool as [| | | | |d]; try done. cbn [transform_tool].
  destruct (eq_str (dict_get d "type") "function") eqn:Hty.
  - destruct (d !! "function") as [[| | | | |f]|] eqn:Hf; try done.
    intros [= <-]. cbn [transform_tool]. unfold dict_get in *.
    rewrite lookup_insert_ne by done. rewrite Hty, lookup_insert_eq.
    by rewrite delete_delete_eq, insert_insert_eq.
  - intros [= <-]. cbn [transform_tool]. by rewrite Hty.
Qed.

(** X3: [_transform_tools] keeps the number and order of the tools, leaves
    every tool that is not of type [function] as it is, takes [strict] and
    nothing else out of the [function] dictionary of the others, and changes
    nothing on a second run. *)
Theorem transform_tools_strips_strict (tools tools' : list obj) :
  _transform_tools tools = Some tools' →
  length tools' = length tools
  ∧ _transform_tools tools' = Some tools'
  ∧ ∀ (i : nat) (d : gmap string obj),
      tools !! i = Some (ODict d) →
      if eq_str (dict_get d "type") "function" then
        ∃ f, d !! "function" = Some (ODict f)
             ∧ tools' !! i = Some (ODict (<["function" := ODict (delete "strict" f)]> d))
             ∧ delete "strict" f !! "strict" = None
             ∧ ∀ k, k ≠ "strict" → delete "strict" f !! k = f !! k
      else tools' !! i = Some (ODict d).
Proof.
  unfold _transform_tools. intros Hm. apply mapM_Some in Hm. split_and!.
  - symmetry. by eapply Forall2_length.
  - apply mapM_Some. induction Hm as [|x y l k Hxy _ IH]; constructor; [|done].
    by eapply transform_tool_idemp.
  - intros i d Hi.
    destruct (Forall2_lookup_l _ _ _ _ _ Hm Hi) as (y & Hy & Hxy).
    cbn [transform_tool] in Hxy.
    destruct (eq_str (dict_get d "type") "function").
    + destruct (d !! "function") as [[| | | | |f]|]; try done.
      injection Hxy as <-. exists f. split_and!; try done.
      * apply lookup_delete_eq.
      * intros k Hk. by apply lookup_delete_ne.
    + by injection Hxy as <-.
Qed.

End FireworksConfigFacts.

(** A run of X3's theorem: the [strict] flag of a function tool goes, a
    retrieval tool stays as it is. *)
Lemma transform_tools_strips_strict_run :
  FireworksConfig._transform_tools Examples2.tools_in = Some Examples2.tools_out
  ∧ length Examples2.tools_out = length Examples2.tools_in
  ∧ FireworksConfig._transform_tools Examples2.tools_out = Some Examples2.tools_out.
Proof.
  assert (FireworksConfig._transform_tools Examples2.tools_in
          = Some Examples2.tools_out) as Hrun by (vm_compute; reflexivity).
  destruct (transform_tools_strips_strict _ _ Hrun) as (Hlen & Hidem & _).
  by split_and!.
Defined.

(** *** Provider info and the model list *)

Section ProviderFacts.
Import Obj FireworksConfig.
Context `{Secrets}.

Lemma or_truthy_l (a b : option string) : truthy a = true → or_ a b = a.
Proof. unfold or_. by intros ->. Qed.

Lemma or_truthy_r (a b : option string) : truthy a = false → or_ a b = b.
Proof. unfold or_. by intros ->. Qed.

Lemma truthy_or (a b : option string) : truthy (or_ a b) = truthy a || truthy b.
Proof. unfold or_. by destruct (truthy a) eqn:Ha; rewrite ?Ha. Qed.

Lemma provider_info_fallbacks_base (api_base api_key : option string) :
  (_get_openai_compatible_provider_info api_base api_key).1 ≠ None.
Proof.
  unfold _get_openai_compatible_provider_info, or_. cbn [fst].
  destruct api_base as [[|c b]|]; cbn [truthy];
    try done; by destruct (get_secret_str "FIREWORKS_API_BASE") as [[|c' b']|].
Qed.

(** X4: the API base of the provider info is never missing or empty: it is
    the argument when that is a non-empty string, else the secret
    [FIREWORKS_API_BASE] when that is non-empty, else the default; the key
    is the one [get_api_key] gives: the first non-empty source among the
    argument and the four secrets in order, and the last secret as it is
    when all of them are missing or empty. *)
Theorem provider_info_fallbacks (api_base api_key : option string) :
  let info := _get_openai_compatible_provider_info api_base api_key in
  truthy info.1 = true
  ∧ (truthy api_base = true → info.1 = api_base)
  ∧ (truthy api_base = false → truthy (get_secret_str "FIREWORKS_API_BASE") = true →
     info.1 = get_secret_str "FIREWORKS_API_BASE")
  ∧ (truthy api_base = false → truthy (get_secret_str "FIREWORKS_API_BASE") = false →
     info.1 = Some default_api_base)
  ∧ info.2 = get_api_key api_key
  ∧ info.2 = default (get_secret_str "FIREWORKS_AI_TOKEN")
               (List.find truthy (api_key_sources api_key))
  ∧ (truthy info.2 = false ↔ Forall (λ s, truthy s = false) (api_key_sources api_key)).
Proof.
  cbv zeta. unfold _get_openai_compatible_provider_info, get_api_key, api_key_sources.
  cbn [fst snd List.find]. split_and!.
  - rewrite !truthy_or. cbn. by rewrite !orb_true_r.
  - intros Hb. by rewrite or_truthy_l.
  - intros Hb Hs. by rewrite or_truthy_r, or_truthy_l.
  - intros Hb Hs. by rewrite !or_truthy_r.
  - done.
  - unfold or_.
    destruct (truthy api_key); [done|].
    destruct (truthy (get_secret_str "FIREWORKS_API_KEY")); [done|].
    destruct (truthy (get_secret_str "FIREWORKS_AI_API_KEY")); [done|].
    destruct (truthy (get_secret_str "FIREWORKSAI_API_KEY")); [done|].
    by destruct (truthy (get_secret_str "FIREWORKS_AI_TOKEN")).
  - rewrite !truthy_or, !Forall_cons, Forall_nil, !orb_false_iff. tauto.
Qed.

(** X5: [get_models] asks the server only when it has a key and an account
    id, and then exactly once, at the API base followed by
    [/v1/accounts/{account_id}/models] with the key as bearer token; without
    a key it fails before looking for the account id; it returns names only
    for a status of 200 with a readable body, each name of the body prefixed
    with [fireworks_ai/], in the order of the body. *)
Theorem get_models_spec (client : Request → HttpResponse)
    (api_key api_base : option string) :
  let info := _get_openai_compatible_provider_info api_base api_key in
  let out := get_models client api_key api_base in
  (info.2 = None → out = ([], inl MissingCredentials))
  ∧ (info.2 ≠ None → get_secret_str "FIREWORKS_ACCOUNT_ID" = None →
     out = ([], inl MissingAccountId))
  ∧ (∀ base key account,
       info.1 = Some base → info.2 = Some key →
       get_secret_str "FIREWORKS_ACCOUNT_ID" = Some account →
       let request :=
         {| req_url := base +:+ "/v1/accounts/" +:+ account +:+ "/models";
            req_headers := {["Authorization" := "Bearer " +:+ key]} |} in
       out.1 = [request]
       ∧ (∀ names, out.2 = inr names ↔
            resp_status_code (client request) = 200%Z
            ∧ ∃ body, resp_json (client request) = Some (Some body)
                      ∧ names = (λ name, "fireworks_ai/" +:+ name) <$> body)
       ∧ (resp_status_code (client request) ≠ 200%Z →
          out.2 = inl (FetchFailed (resp_status_code (client request)))
          ∨ out.2 = inl BodyError))
  ∧ length out.1 ≤ 1
  ∧ ∀ names, out.2 = inr names → Forall (λ n, PyStr.startswith n "fireworks_ai/" = true) names.
Proof.
  cbv zeta. unfold get_models.
  pose proof (provider_info_fallbacks_base api_base api_key) as Hbase.
  destruct (_get_openai_compatible_provider_info api_base api_key) as [b k].
  cbn [fst snd] in *. destruct b as [b|]; [|done]. clear Hbase.
  destruct k as [k|]; cbn [fst snd].
  2:{ split_and!; try done. simpl. lia. }
  destruct (get_secret_str "FIREWORKS_ACCOUNT_ID") as [account|] eqn:Hacc.
  2:{ split_and!; try done. simpl. lia. }
  set (request := {| req_url := b +:+ "/v1/accounts/" +:+ account +:+ "/models";
                     req_headers := {["Authorization" := "Bearer " +:+ k]} |}).
  assert (Hnames : ∀ body : list string,
            Forall (λ n, PyStr.startswith n "fireworks_ai/" = true)
              ((λ name, "fireworks_ai/" +:+ name) <$> body)).
  { intros body. apply Forall_fmap, Forall_true. intros n. apply startswith_app. }
  destruct (Z.eqb_spec (resp_status_code (client request)) 200) as [Hok|Hbad];
    cbn [negb];
    destruct (resp_json (client request)) as [[body|]|] eqn:Hjson; cbn [fst snd];
    (split_and!; [done | done | | simpl; lia | intros names [= <-]; apply Hnames ]);
    intros base key account' [= <-] [= <-] [= <-]; fold request;
    rewrite ?Hjson; (split; [done|]); split;
    try (intros names; split; [intros [= <-]; eauto | intros (? & body' & [= <-] & ->); done]);
    try (intros names; split; [done | intros (? & body' & ? & _); congruence]);
    try (intros names; split; [done | intros (? & _); congruence]);
    try (intros ?; congruence); eauto.
Qed.

End ProviderFacts.

(** *** Image blocks *)

Section ImageBlockFacts.
Import Obj FireworksConfig.
Context `{PyFormat}.

Lemma substring_app (a n b : string) :
  String.substring (String.length a) (String.length n) (a +:+ n +:+ b) = n.
Proof.
  induction a as [|c a IH]; [|exact IH].
  induction n as [|c n IH]; [by destruct b|]. simpl. by f_equal.
Qed.

(** [needle in s] holds for every string that has [needle] somewhere. *)
Lemma str_in_app (a n b : string) : n ≠ "" → str_in n (a +:+ n +:+ b) = true.
Proof.
  intros Hn. unfold str_in.
  destruct (String.index 0 n (a +:+ n +:+ b)) eqn:Hidx; [done|].
  exfalso. eapply (String.index_correct3 0 (String.length a)); [done | done | lia |].
  apply substring_app.
Qed.

(** X6: for a model whose name contains [vision] anywhere, or when the
    feature is disabled, the block is returned as it is, whether or not it
    has an [image_url]; otherwise a missing [image_url] raises, a string URL
    gets [#transform=inline] appended, a dictionary gets it appended to its
    [url], and nothing else in the block changes; a second call appends the
    suffix a second time. *)
Theorem add_transform_inline_image_block_spec (content : gmap string obj)
    (model : string) :
  (∀ a b disable, model = a +:+ "vision" +:+ b →
     _add_transform_inline_image_block content model disable = Some content)
  ∧ _add_transform_inline_image_block content model true = Some content
  ∧ (str_in "vision" model = false →
     (content !! "image_url" = None →
      _add_transform_inline_image_block content model false = None)
     ∧ (∀ url, content !! "image_url" = Some (OStr url) →
          ∃ content',
            _add_transform_inline_image_block content model false = Some content'
            ∧ content' !! "image_url" = Some (OStr (url +:+ "#transform=inline"))
            ∧ (∀ k, k ≠ "image_url" → content' !! k = content !! k)
            ∧ ∃ content'',
                _add_transform_inline_image_block content' model false = Some content''
                ∧ content'' !! "image_url"
                  = Some (OStr (url +:+ "#transform=inline#transform=inline")))
     ∧ (∀ d url, content !! "image_url" = Some (ODict d) →
          d !! "url" = Some (OStr url) →
          ∃ content',
            _add_transform_inline_image_block content model false = Some content'
            ∧ content' !! "image_url"
              = Some (ODict (<["url" := OStr (url +:+ "#transform=inline")]> d))
            ∧ (∀ k, k ≠ "image_url" → content' !! k = content !! k))
     ∧ (∀ d, content !! "image_url" = Some (ODict d) → d !! "url" = None →
          _add_transform_inline_image_block content model false = None)).
Proof.
  unfold _add_transform_inline_image_block. split_and!.
  - intros a b disable ->. by rewrite str_in_app.
  - by rewrite orb_true_r.
  - intros Hvision. rewrite Hvision. cbn [orb]. split_and!.
    + by intros ->.
    + intros url ->. cbn. eexists. split; [done|]. split_and!.
      * apply lookup_insert_eq.
      * intros k Hk. by apply lookup_insert_ne.
      * rewrite lookup_insert_eq. cbn. eexists. split; [done|].
        rewrite lookup_insert_eq. by rewrite string_app_assoc.
    + intros d url -> Hurl. cbn. rewrite Hurl. cbn. eexists. split; [done|]. split.
      * apply lookup_insert_eq.
      * intros k Hk. by apply lookup_insert_ne.
    + intros d -> Hurl. cbn. by rewrite Hurl.
Qed.

End ImageBlockFacts.

(** *** Parameter mapping *)

Section MapParamsFacts.
Import Obj FireworksConfig FireworksParams.
Context `{ModelSupport, ParentConfig}.

(** The loop of [map_openai_params], from any state. *)
Local Abbreviation run_params supported tools_set start params :=
  (foldl (λ acc pv, optional_params ← acc;
                    map_param supported tools_set optional_params pv) start params).

Lemma run_params_None supported tools_set params :
  run_params supported tools_set None params = None.
Proof. induction params as [|pv params IH]; [done | exact IH]. Qed.

Lemma run_params_cons supported tools_set optional_params pv params out :
  run_params supported tools_set (Some optional_params) (pv :: params) = Some out →
  ∃ mid, map_param supported tools_set optional_params pv = Some mid
         ∧ run_params supported tools_set (Some mid) params = Some out.
Proof.
  cbn [foldl mbind option_bind].
  destruct (map_param supported tools_set optional_params pv) as [mid|]; [eauto|].
  by rewrite run_params_None.
Qed.

Lemma param_target_unconditional (param : string) :
  param_target param = "tool_choice" ↔ param = "tool_choice".
Proof.
  unfold param_target. destruct (String.eqb_spec param "max_completion_tokens"); [|done].
  subst. split; discriminate.
Qed.

(** A turn of the loop that does not call the parent class writes at most
    the target of its parameter, and only for a parameter it handles. *)
Lemma param_target_other (param : string) :
  param ≠ "max_completion_tokens" → param_target param = param.
Proof.
  intros Hne. unfold param_target.
  by destruct (String.eqb_spec param "max_completion_tokens").
Qed.

Lemma insert_written (optional_params : gmap string obj) (key k : string) (v : obj)
    (why : Prop) :
  why →
  <[key := v]> optional_params !! k = optional_params !! k ∨ (key = k ∧ why).
Proof.
  intros Hwhy. destruct (decide (key = k)) as [<-|Hne]; [by right|left].
  by rewrite lookup_insert_ne.
Qed.

Lemma map_param_step supported tools_set optional_params param value mid :
  map_param supported tools_set optional_params (param, value) = Some mid →
  tools_set = false ∨ param ≠ "response_format" →
  ∀ k, mid !! k = optional_params !! k
       ∨ (param_target param = k
          ∧ (param ∈ unconditional_params ∨ (param ∈ supported ∧ value ≠ ONone))).
Proof.
  intros Hstep Hparent k. unfold map_param in Hstep.
  destruct (String.eqb_spec param "tool_choice") as [->|Htc].
  { change (param_target "tool_choice") with "tool_choice".
    destruct (eq_str value "required"); injection Hstep as <-;
      apply insert_written; left; apply list_elem_of_here. }
  destruct (String.eqb_spec param "response_format") as [->|Hrf].
  { change (param_target "response_format") with "response_format".
    destruct Hparent as [->|]; [|done].
    destruct (has_json_schema value) as [[]|]; cbn in Hstep; [| |done].
    - destruct (json_schema_schema value); cbn in Hstep; [|done].
      injection Hstep as <-. apply insert_written. left.
      apply list_elem_of_further, list_elem_of_here.
    - injection Hstep as <-. apply insert_written. left.
      apply list_elem_of_further, list_elem_of_here. }
  destruct (String.eqb_spec param "max_completion_tokens") as [->|Hmc].
  { change (param_target "max_completion_tokens") with "max_tokens".
    injection Hstep as <-. apply insert_written. left.
    do 2 apply list_elem_of_further. apply list_elem_of_here. }
  rewrite param_target_other by done.
  case_bool_decide as Hsup; [|injection Hstep as <-; by left].
  destruct (is_None value) eqn:Hv; cbn in Hstep; injection Hstep as <-; [by left|].
  apply obj_is_None_false in Hv. apply insert_written. by right.
Qed.


(** The loop leaves alone every key that is the target of none of its
    parameters. *)
Lemma run_params_frame supported tools_set params :
  ∀ optional_params out k,
    run_params supported tools_set (Some optional_params) params = Some out →
    tools_set = false ∨ "response_format" ∉ params.*1 →
    (∀ pv, pv ∈ params → param_target pv.1 ≠ k) →
    out !! k = optional_params !! k.
Proof.
  induction params as [|[param value] params IH]; intros optional_params out k Hrun Hparent Hk.
  - by injection Hrun as <-.
  - apply run_params_cons in Hrun as (mid & Hstep & Hrun).
    rewrite (IH mid out k Hrun).
    + destruct (map_param_step _ _ _ _ _ _ Hstep) with (k := k) as [Hsame|[Htarget _]];
        [|done|].
      * destruct Hparent as [?|Hnot]; [by left|right]. intros ->. apply Hnot.
        cbn. apply list_elem_of_here.
      * exfalso. by apply (Hk (param, value)); [apply list_elem_of_here|].
    + destruct Hparent as [?|Hnot]; [by left|right]. intros Hin. apply Hnot.
      cbn. by apply list_elem_of_further.
    + intros pv Hpv. apply Hk. by apply list_elem_of_further.
Qed.

Lemma run_params_app supported tools_set before pv after optional_params out :
  run_params supported tools_set (Some optional_params) (before ++ pv :: after) = Some out →
  ∃ mid mid',
    run_params supported tools_set (Some optional_params) before = Some mid
    ∧ map_param supported tools_set mid pv = Some mid'
    ∧ run_params supported tools_set (Some mid') after = Some out.
Proof.
  rewrite foldl_app.
  destruct (run_params supported tools_set (Some optional_params) before) as [mid|].
  - intros (mid' & Hstep & Hrun)%run_params_cons. eauto.
  - by rewrite run_params_None.
Qed.

(** Where a key is in a list of items without repeated keys. *)
Lemma items_split (params : list (string * obj)) (param : string) (value : obj) :
  NoDup params.*1 → (param, value) ∈ params →
  ∃ before after,
    params = before ++ (param, value) :: after
    ∧ (param ∉ before.*1) ∧ (param ∉ after.*1).
Proof.
  intros Hnd (before & after & ->)%list_elem_of_split. exists before, after.
  rewrite fmap_app, fmap_cons in Hnd. cbn in Hnd.
  apply NoDup_app in Hnd as (_ & Hbefore & [Hafter _]%NoDup_cons).
  split_and!; [done | | done]. intros Hin. apply (Hbefore _ Hin), list_elem_of_here.
Qed.

Lemma no_parent_split (tools_set : bool) (before after : list (string * obj))
    (pv : string * obj) :
  tools_set = false ∨ "response_format" ∉ (before ++ pv :: after).*1 →
  (tools_set = false ∨ "response_format" ∉ before.*1)
  ∧ (tools_set = false ∨ pv.1 ≠ "response_format")
  ∧ (tools_set = false ∨ "response_format" ∉ after.*1).
Proof.
  rewrite fmap_app, fmap_cons. intros [?|Hnot]; [by split_and!; left|].
  apply not_elem_of_app in Hnot as [Hb [Hp Ha]%not_elem_of_cons].
  split_and!; right; [done | congruence | done].
Qed.

(** X8: when the parent class is not called, a [tool_choice] given to
    [map_openai_params] is always in the result, whether or not the model
    supports it and even when it is [None]: as ["any"] when it was
    ["required"], and as it was given otherwise. *)
Theorem map_openai_params_tool_choice (non_default_params : list (string * obj))
    (optional_params out : gmap string obj) (model : string) (drop_params : bool)
    (value : obj) :
  NoDup non_default_params.*1 →
  ("tool_choice", value) ∈ non_default_params →
  is_tools_set non_default_params = false
  ∨ "response_format" ∉ non_default_params.*1 →
  map_openai_params non_default_params optional_params model drop_params = Some out →
  out !! "tool_choice" = Some (if eq_str value "required" then OStr "any" else value).
Proof.
  unfold map_openai_params. intros Hnd Hin Hparent Hrun.
  destruct (items_split _ _ _ Hnd Hin) as (before & after & Heq & Hbefore & Hafter).
  rewrite Heq in Hrun, Hparent.
  apply no_parent_split in Hparent as (_ & _ & Hparent).
  apply run_params_app in Hrun as (mid & mid' & _ & Hstep & Hrun).
  rewrite (run_params_frame _ _ _ _ _ "tool_choice" Hrun Hparent).
  - cbn in Hstep. destruct (eq_str value "required"); injection Hstep as <-;
      apply lookup_insert_eq.
  - intros [p v] Hpv Htarget. cbn [fst] in Htarget.
    apply (proj1 (param_target_unconditional p)) in Htarget. subst p. apply Hafter.
    by apply (list_elem_of_fmap_2 fst _ _ Hpv).
Qed.

(** X9: [max_completion_tokens] is renamed, not filtered: when the parent
    class is not called and [max_tokens] is not given as well, its value is
    in the result under [max_tokens], [None] included, and nothing is ever
    written under [max_completion_tokens]; whereas a [max_tokens] that is
    [None] is dropped. *)
Theorem map_openai_params_max_tokens (non_default_params : list (string * obj))
    (optional_params out : gmap string obj) (model : string) (drop_params : bool) :
  NoDup non_default_params.*1 →
  is_tools_set non_default_params = false
  ∨ "response_format" ∉ non_default_params.*1 →
  map_openai_params non_default_params optional_params model drop_params = Some out →
  (∀ value, ("max_completion_tokens", value) ∈ non_default_params →
     "max_tokens" ∉ non_default_params.*1 →
     out !! "max_tokens" = Some value)
  ∧ (("max_tokens", ONone) ∈ non_default_params →
     "max_completion_tokens" ∉ non_default_params.*1 →
     out !! "max_tokens" = optional_params !! "max_tokens")
  ∧ out !! "max_completion_tokens" = optional_params !! "max_completion_tokens".
Proof.
  unfold map_openai_params. intros Hnd Hparent Hrun. split_and!.
  - intros value Hin Hmax.
    destruct (items_split _ _ _ Hnd Hin) as (before & after & Heq & Hbefore & Hafter).
    rewrite Heq in Hrun, Hparent, Hmax.
    apply no_parent_split in Hparent as (_ & _ & Hparent).
    apply run_params_app in Hrun as (mid & mid' & _ & Hstep & Hrun).
    rewrite (run_params_frame _ _ _ _ _ "max_tokens" Hrun Hparent).
    + cbn in Hstep. injection Hstep as <-. apply lookup_insert_eq.
    + intros [p v] Hpv Htarget. cbn in Htarget. unfold param_target in Htarget.
      destruct (String.eqb_spec p "max_completion_tokens") as [->|_].
      * apply Hafter. by apply (list_elem_of_fmap_2 fst _ _ Hpv).
      * subst p. apply Hmax. rewrite fmap_app, fmap_cons, elem_of_app, elem_of_cons.
        right. right. by apply (list_elem_of_fmap_2 fst _ _ Hpv).
  - intros Hin Hmct.
    destruct (items_split _ _ _ Hnd Hin) as (before & after & Heq & Hbefore & Hafter).
    rewrite Heq in Hrun, Hparent, Hmct.
    rewrite fmap_app, fmap_cons, not_elem_of_app, not_elem_of_cons in Hmct.
    destruct Hmct as (Hmct_before & _ & Hmct_after).
    apply no_parent_split in Hparent as (Hparent_before & _ & Hparent_after).
    apply run_params_app in Hrun as (mid & mid' & Hrun_before & Hstep & Hrun_after).
    assert (∀ l : list (string * obj),
              "max_tokens" ∉ l.*1 → "max_completion_tokens" ∉ l.*1 →
              ∀ pv, pv ∈ l → param_target pv.1 ≠ "max_tokens") as Hother.
    { intros l Hmax Hmct [p v] Hpv Htarget. cbn in Htarget.
      unfold param_target in Htarget.
      destruct (String.eqb_spec p "max_completion_tokens") as [->|_].
      - apply Hmct. by apply (list_elem_of_fmap_2 fst _ _ Hpv).
      - subst p. apply Hmax. by apply (list_elem_of_fmap_2 fst _ _ Hpv). }
    rewrite (run_params_frame _ _ _ _ _ "max_tokens" Hrun_after Hparent_after)
      by by apply Hother.
    rewrite <- (run_params_frame _ _ _ _ _ "max_tokens" Hrun_before Hparent_before)
      by by apply Hother.
    cbn in Hstep. case_bool_decide; cbn in Hstep; by injection Hstep as <-.
  - apply (run_params_frame _ _ _ _ _ "max_completion_tokens" Hrun Hparent).
    intros [p v] _. cbn. unfold param_target.
    by destruct (String.eqb_spec p "max_completion_tokens").
Qed.

(** X10: when no tools are set, a [response_format] that is no container
    ([None], a number, a boolean), or that holds [json_schema] without a
    dictionary with a [schema] under it, makes [map_openai_params] raise. *)
Theorem map_openai_params_response_format_raises
    (non_default_params : list (string * obj)) (optional_params : gmap string obj)
    (model : string) (drop_params : bool) (value : obj) :
  ("response_format", value) ∈ non_default_params →
  is_tools_set non_default_params = false →
  has_json_schema value = None
  ∨ (has_json_schema value = Some true ∧ json_schema_schema value = None) →
  map_openai_params non_default_params optional_params model drop_params = None.
Proof.
  unfold map_openai_params. intros (before & after & ->)%list_elem_of_split -> Hbad.
  rewrite foldl_app. cbn [foldl].
  destruct (foldl _ (Some optional_params) before) as [mid|]; cbn [mbind option_bind].
  - assert (map_param (get_supported_openai_params model) false mid
              ("response_format", value) = None) as ->.
    { cbn. by destruct Hbad as [->|[-> ->]]. }
    apply run_params_None.
  - apply run_params_None.
Qed.

End MapParamsFacts.


(** A run of X8's theorem: a model without tool-choice support still gets
    the mapped value. *)
Lemma map_openai_params_tool_choice_run :
  FireworksConfig.map_openai_params (H := FireworksParams.no_support)
    (H0 := FireworksParams.idle_parent) Examples2.tool_choice_params ∅ "llama" false
  = Some {["tool_choice" := Obj.OStr "any"]}
  ∧ ({["tool_choice" := Obj.OStr "any"]} : gmap string Obj.obj) !! "tool_choice"
    = Some (Obj.OStr "any").
Proof.
  assert (FireworksConfig.map_openai_params (H := FireworksParams.no_support)
            (H0 := FireworksParams.idle_parent) Examples2.tool_choice_params ∅ "llama" false
          = Some {["tool_choice" := Obj.OStr "any"]}) as Hrun by (vm_compute; reflexivity).
  split; [exact Hrun|].
  assert (NoDup Examples2.tool_choice_params.*1) as Hnd
    by (apply (bool_decide_unpack _); by vm_compute).
  apply (map_openai_params_tool_choice (H := FireworksParams.no_support)
           (H0 := FireworksParams.idle_parent) Examples2.tool_choice_params
           ∅ _ "llama" false (Obj.OStr "required") Hnd
           (list_elem_of_here _ _) (or_introl eq_refl) Hrun).
Defined.

(** A run of X9's theorem: a [max_completion_tokens] of [None] ends up as a
    [max_tokens] of [None]. *)
Lemma map_openai_params_max_tokens_run :
  FireworksConfig.map_openai_params (H := FireworksParams.no_support)
    (H0 := FireworksParams.idle_parent) Examples2.completion_tokens_params ∅ "llama" false
  = Some {["max_tokens" := Obj.ONone]}
  ∧ ({["max_tokens" := Obj.ONone]} : gmap string Obj.obj) !! "max_tokens"
    = Some Obj.ONone.
Proof.
  assert (FireworksConfig.map_openai_params (H := FireworksParams.no_support)
            (H0 := FireworksParams.idle_parent) Examples2.completion_tokens_params
            ∅ "llama" false
          = Some {["max_tokens" := Obj.ONone]}) as Hrun by (vm_compute; reflexivity).
  split; [exact Hrun|].
  assert (NoDup Examples2.completion_tokens_params.*1) as Hnd
    by (apply (bool_decide_unpack _); by vm_compute).
  destruct (map_openai_params_max_tokens (H := FireworksParams.no_support)
              (H0 := FireworksParams.idle_parent) Examples2.completion_tokens_params
              ∅ _ "llama" false Hnd (or_introl eq_refl) Hrun) as (Hrename & _ & _).
  apply Hrename; [apply list_elem_of_here|].
  apply (bool_decide_unpack _); by vm_compute.
Defined.

(** A run of X10's theorem: a [response_format] of [None]. *)
Lemma map_openai_params_response_format_raises_run :
  FireworksConfig.map_openai_params (H := FireworksParams.no_support)
    (H0 := FireworksParams.idle_parent)
    [("temperature", Obj.OInt 1); ("response_format", Obj.ONone)] ∅ "llama" false
  = None.
Proof.
  apply (map_openai_params_response_format_raises (H := FireworksParams.no_support)
           (H0 := FireworksParams.idle_parent) _ _ _ _ Obj.ONone);
    [apply list_elem_of_further, list_elem_of_here | reflexivity | by left].
Defined.

(** ** Fireworks AI: tool calls sent as content *)

Section ToolCallFacts.
Import Fireworks.
Context `{Collaborators, Py.Uuid4}.

(** What one call of the helper does: nothing, or one draw and a rewrite. *)
Lemma handle_message_cases (message : Message)
    (tools : option (list ChatCompletionToolParam)) (d : nat) :
  _handle_message_content_with_tool_calls message tools d = (message, d)
  ∨ ∃ offered text function names name,
      tools = Some offered
      ∧ content message = Some text
      ∧ Fireworks.tool_calls message = None
      ∧ Function_of_json text = Some function
      ∧ fn_name function = Some name
      ∧ name ≠ RESPONSE_FORMAT_TOOL_NAME
      ∧ mapM tool_function_name offered = Some names
      ∧ name ∈ names
      ∧ _handle_message_content_with_tool_calls message tools d
        = ({| content := None;
              tool_calls := Some [{| tc_function := function;
                                     tc_id := Py.uuid4_str d;
                                     tc_type := "function" |}];
              message_attrs := message_attrs message |}, S d).
Proof.
  unfold _handle_message_content_with_tool_calls.
  destruct tools as [offered|]; [|by left].
  destruct (content message) as [text|] eqn:Htext; [|by left].
  destruct (Fireworks.tool_calls message) eqn:Hcalls; [by left|].
  destruct (Function_of_json text) as [function|] eqn:Hfn; [|by left].
  case_bool_decide as Hname; [|by left].
  destruct (mapM tool_function_name offered) as [names|] eqn:Hnames; [|by left].
  case_bool_decide as Hin; [|by left].
  apply list_elem_of_fmap in Hin as (name & Hfname & Hin).
  right. exists offered, text, function, names, name.
  split_and!; try done. intros ->. by apply Hname.
Qed.

(** X11: the helper changes a message only when tools were offered, the
    message has content and no tool calls, the content decodes to a function
    whose name is one of the offered tools and not the response-format
    tool; it then draws one identifier, moves the function into a single
    tool call and clears the content.  Existing tool calls are never
    replaced, and a second call changes nothing. *)
Theorem handle_message_content_spec (message : Message)
    (tools : option (list ChatCompletionToolParam)) (d : nat) :
  let out := _handle_message_content_with_tool_calls message tools d in
  (tools = None ∨ content message = None ∨ Fireworks.tool_calls message ≠ None →
   out = (message, d))
  ∧ (out.1 ≠ message →
     out.2 = S d
     ∧ content out.1 = None
     ∧ message_attrs out.1 = message_attrs message
     ∧ ∃ offered text function name,
         tools = Some offered
         ∧ content message = Some text
         ∧ Function_of_json text = Some function
         ∧ fn_name function = Some name
         ∧ name ≠ RESPONSE_FORMAT_TOOL_NAME
         ∧ (∃ tool, tool ∈ offered ∧ tool_function_name tool = Some name)
         ∧ Fireworks.tool_calls out.1
           = Some [{| tc_function := function; tc_id := Py.uuid4_str d;
                      tc_type := "function" |}])
  ∧ (out.1 = message → out.2 = d)
  ∧ _handle_message_content_with_tool_calls out.1 tools out.2 = out.
Proof.
  cbv zeta. split_and!.
  - unfold _handle_message_content_with_tool_calls.
    intros [->|[->|Hcalls]]; [done | by destruct tools |].
    destruct tools, (content message), (Fireworks.tool_calls message); done.
  - destruct (handle_message_cases message tools d)
      as [->|(offered & text & function & names & name & -> & Htext & Hcalls
              & Hfn & Hname & Hne & Hnames & Hin & ->)]; [done|].
    intros _. cbn [fst snd content message_attrs Fireworks.tool_calls].
    split_and!; try done.
    exists offered, text, function, name. split_and!; try done.
    apply mapM_Some in Hnames.
    apply list_elem_of_lookup in Hin as [i Hi].
    destruct (Forall2_lookup_r _ _ _ _ _ Hnames Hi) as (tool & Htool & Hfname).
    exists tool. split; [|done]. apply list_elem_of_lookup. eauto.
  - destruct (handle_message_cases message tools d)
      as [->|(offered & text & function & names & name & -> & Htext & Hcalls
              & Hfn & Hname & Hne & Hnames & Hin & ->)]; [done|].
    cbn [fst snd]. intros Heq. apply (f_equal content) in Heq.
    cbn [content] in Heq. congruence.
  - destruct (handle_message_cases message tools d)
      as [Hsame|(offered & text & function & names & name & -> & Htext & Hcalls
                 & Hfn & Hname & Hne & Hnames & Hin & ->)].
    + rewrite Hsame. cbn [fst snd]. exact Hsame.
    + done.
Qed.

Hypothesis uuid4_fresh : ∀ i j, Py.uuid4_str i = Py.uuid4_str j → i = j.

(** A choice the loop rewrote holds one tool call, whose identifier is a
    draw made during the loop. *)
Lemma handle_choices_draws (cs : list Choices)
    (tools : option (list ChatCompletionToolParam)) :
  ∀ (d : nat) (cs' : list Choices) (d' : nat),
    handle_choices cs tools d = (cs', d') →
    d ≤ d' ≤ d + length cs
    ∧ ∀ i c c', cs !! i = Some c → cs' !! i = Some c' →
        choice_attrs c' = choice_attrs c
        ∧ (message c' = message c
           ∨ ∃ n function,
               d ≤ n < d'
               ∧ Fireworks.tool_calls (message c')
                 = Some [{| tc_function := function; tc_id := Py.uuid4_str n;
                            tc_type := "function" |}]).
Proof.
  induction cs as [|c0 cs IH]; intros d cs' d' Hrun; cbn [handle_choices] in Hrun.
  - injection Hrun as <- <-. split; [simpl; lia|]. by intros i c c' ?.
  - destruct (_handle_message_content_with_tool_calls (message c0) tools d)
      as [m d1] eqn:Hhead.
    destruct (handle_choices cs tools d1) as [cs1 d2] eqn:Htail.
    injection Hrun as <- <-. destruct (IH d1 cs1 d2 Htail) as [Hrange Hrest].
    assert (d ≤ d1 ≤ S d
            ∧ (m = message c0
               ∨ ∃ function,
                   d1 = S d
                   ∧ Fireworks.tool_calls m
                     = Some [{| tc_function := function; tc_id := Py.uuid4_str d;
                                tc_type := "function" |}])) as [Hd1 Hm].
    { destruct (handle_message_cases (message c0) tools d)
        as [Hsame|(offered & text & function & names & name & _ & _ & _ & _ & _ & _
                   & _ & _ & Hrewrite)]; rewrite Hhead in *.
      - injection Hsame as -> ->. split; [lia | by left].
      - injection Hrewrite as -> ->. split; [lia|]. right. by exists function. }
    split; [simpl; lia|]. intros [|i] c c' Hc Hc'; cbn in Hc, Hc'.
    + injection Hc as <-. injection Hc' as <-. cbn [message choice_attrs].
      split; [done|]. destruct Hm as [->|(function & -> & Hcalls)]; [by left|].
      right. exists d, function. split; [lia | done].
    + destruct (Hrest i c c' Hc Hc') as [Hattrs [Hsame|(n & function & Hn & Hcalls)]];
        (split; [done|]); [by left|].
      right. exists n, function. split; [lia | done].
Qed.

(** X12: the loop over the choices of a response keeps their number and
    order and what they hold besides the message, draws at most one
    identifier per choice, and gives the tool calls it creates pairwise
    different identifiers, provided [uuid4] does not repeat. *)
Theorem handle_choices_distinct_ids (cs cs' : list Choices)
    (tools : option (list ChatCompletionToolParam)) (d d' : nat) :
  handle_choices cs tools d = (cs', d') →
  length cs' = length cs
  ∧ d ≤ d' ≤ d + length cs
  ∧ (∀ i c c', cs !! i = Some c → cs' !! i = Some c' →
       choice_attrs c' = choice_attrs c)
  ∧ ∀ i j ci cj ci' cj' ti tj,
      i < j →
      cs !! i = Some ci → cs' !! i = Some ci' → message ci' ≠ message ci →
      cs !! j = Some cj → cs' !! j = Some cj' → message cj' ≠ message cj →
      Fireworks.tool_calls (message ci') = Some [ti] →
      Fireworks.tool_calls (message cj') = Some [tj] →
      tc_id ti ≠ tc_id tj.
Proof.
  intros Hrun. split; [|split; [|split]].
  - pose proof (handle_choices_length cs tools d) as Hlen. by rewrite Hrun in Hlen.
  - by apply (handle_choices_draws cs tools d cs' d').
  - intros i c c' Hc Hc'.
    destruct (handle_choices_draws cs tools d cs' d' Hrun) as [_ Hrest].
    by destruct (Hrest i c c' Hc Hc').
  - revert d cs' d' Hrun.
    induction cs as [|c0 cs IH]; intros d cs' d' Hrun i j ci cj ci' cj' ti tj Hlt
      Hi Hi' Hri Hj Hj' Hrj Hti Htj; [done|].
    cbn [handle_choices] in Hrun.
    destruct (_handle_message_content_with_tool_calls (message c0) tools d)
      as [m d1] eqn:Hhead.
    destruct (handle_choices cs tools d1) as [cs1 d2] eqn:Htail.
    injection Hrun as <- <-.
    destruct j as [|j]; [lia|]. cbn in Hj, Hj'. destruct i as [|i]; cbn in Hi, Hi'.
    + injection Hi as <-. injection Hi' as <-. cbn [message] in Hri, Hti.
      destruct (handle_message_cases (message c0) tools d)
        as [Hsame|(offered & text & function & names & name & _ & _ & _ & _ & _ & _
                   & _ & _ & Hrewrite)]; rewrite Hhead in *.
      { by injection Hsame as -> ->. }
      injection Hrewrite as -> ->. cbn [Fireworks.tool_calls] in Hti.
      injection Hti as <-. cbn [tc_id].
      destruct (handle_choices_draws cs tools (S d) cs1 d2 Htail) as [_ Hrest].
      destruct (Hrest j cj cj' Hj Hj') as [_ [Hsame|(n & function' & Hn & Hcalls)]];
        [done|].
      rewrite Hcalls in Htj. injection Htj as <-. cbn [tc_id].
      intros Heq%uuid4_fresh. lia.
    + apply (IH d1 cs1 d2 Htail i j ci cj ci' cj' ti tj); (lia || done).
Qed.

End ToolCallFacts.

(** A run of X12's theorem: two choices that both carry a tool call in their
    content. *)
Lemma handle_choices_distinct_ids_run :
  Fireworks.handle_choices (H := Examples3.toy_collaborators) (H0 := Py.counting_uuid4)
    [Examples3.weather_choice; Examples3.weather_choice] Examples3.weather_tools 0
  = ([Examples3.weather_call "uuid-0"; Examples3.weather_call "uuid-1"], 2%nat)
  ∧ ("uuid-0" : string) ≠ "uuid-1".
Proof.
  assert (Fireworks.handle_choices (H := Examples3.toy_collaborators)
            (H0 := Py.counting_uuid4)
            [Examples3.weather_choice; Examples3.weather_choice] Examples3.weather_tools 0
          = ([Examples3.weather_call "uuid-0"; Examples3.weather_call "uuid-1"], 2%nat))
    as Hrun by (vm_compute; reflexivity).
  split; [exact Hrun|].
  destruct (handle_choices_distinct_ids (H := Examples3.toy_collaborators)
              (H0 := Py.counting_uuid4) counting_uuid4_inj _ _ _ _ _ Hrun)
    as (_ & _ & _ & Hids).
  by apply (Hids 0%nat 1%nat Examples3.weather_choice Examples3.weather_choice
              (Examples3.weather_call "uuid-0") (Examples3.weather_call "uuid-1")
              _ _ ltac:(lia) eq_refl eq_refl ltac:(done) eq_refl eq_refl ltac:(done)
              eq_refl eq_refl).
Defined.

(** ** Debug endpoints *)

Section OtelFacts.
Import Otel.

Lemma loop_invariant_holds (spans : list Span) :
  loop_invariant spans (foldl loop_step loop_start spans).
Proof.
  induction spans as [|span spans IH] using rev_ind.
  - unfold loop_invariant. cbn. split_and!; try done; try lia.
    intros s Hs. by apply elem_of_nil in Hs.
  - rewrite foldl_app. cbn [foldl].
    destruct IH as (Hfloor & Hmax & Hnone & Hsome & Hgroups).
    set (st := foldl loop_step loop_start spans) in *.
    unfold loop_step. destruct (parent span) as [q|] eqn:Hq.
    + assert (∀ p, <[q := default [] (spans_grouped_by_parent st !! q) ++ [name span]]>
                     (spans_grouped_by_parent st) !! p
                   = match children p (spans ++ [span]) with
                     | [] => None | names => Some names end) as Hgroups'.
      { intros p. unfold children. rewrite filter_app, fmap_app.
        rewrite filter_cons, filter_nil. destruct (decide (p = q)) as [->|Hne].
        - rewrite lookup_insert_eq, decide_True by done. rewrite Hgroups.
          unfold children. by destruct (name <$> filter _ spans).
        - rewrite lookup_insert_ne by done. rewrite decide_False by congruence.
          rewrite Hgroups. unfold children. by rewrite app_nil_r. }
      destruct (Z.ltb_spec (most_recent_start_time st) (start_time span)) as [Hlt|Hge];
        (split_and!; cbn; [| | | | exact Hgroups']).
      * lia.
      * intros s [Hs| ->%list_elem_of_singleton]%elem_of_app Hp; [|lia].
        specialize (Hmax s Hs Hp). lia.
      * done.
      * intros p [= <-]. exists span. split_and!; [|done|done|lia].
        apply elem_of_app. right. by apply list_elem_of_singleton.
      * done.
      * intros s [Hs| ->%list_elem_of_singleton]%elem_of_app Hp; [by apply Hmax | lia].
      * done.
      * intros p Hp. destruct (Hsome p Hp) as (s & Hs & ? & ? & ?).
        exists s. split_and!; try done. apply elem_of_app. by left.
    + split_and!; try done.
      * intros s [Hs| ->%list_elem_of_singleton]%elem_of_app Hp; [by apply Hmax | done].
      * intros p Hp. destruct (Hsome p Hp) as (s & Hs & ? & ? & ?).
        exists s. split_and!; try done. apply elem_of_app. by left.
      * intros p. rewrite Hgroups. unfold children.
        rewrite filter_app, filter_cons, filter_nil, decide_False by congruence.
        by rewrite app_nil_r.
Qed.

(** X13: the endpoint lists the name of every recorded span in order, and
    groups under each parent trace id exactly the names of the spans with
    that parent, in the order they were recorded; a trace id that is the
    parent of no span has no group.  Without a logger, or with an exporter
    that cannot list finished spans, the answer is empty. *)
Theorem get_otel_spans_groups (spans : list Span) (p : Z) :
  let out := get_otel_spans (Some (Some spans)) in
  otel_spans out = name <$> spans
  ∧ (children p spans ≠ [] → grouped_by_parent out !! p = Some (children p spans))
  ∧ (children p spans = [] → grouped_by_parent out !! p = None)
  ∧ (∀ names, grouped_by_parent out !! p = Some names →
       ∀ n, n ∈ names ↔ ∃ s, s ∈ spans ∧ parent s = Some p ∧ name s = n)
  ∧ get_otel_spans (Some None) = get_otel_spans None
  ∧ get_otel_spans None
    = {| otel_spans := []; grouped_by_parent := ∅; recent_parent := None |}.
Proof.
  cbv zeta. unfold get_otel_spans. cbn [default otel_spans grouped_by_parent].
  destruct (loop_invariant_holds spans) as (_ & _ & _ & _ & Hgroups).
  split_and!; try done.
  - intros Hne. rewrite Hgroups. by destruct (children p spans).
  - intros Hnil. by rewrite Hgroups, Hnil.
  - intros names Hnames n. rewrite Hgroups in Hnames.
    assert (names = children p spans) as ->
      by (revert Hnames; destruct (children p spans); congruence).
    unfold children. rewrite list_elem_of_fmap. split.
    + intros (s & -> & [Hp Hs]%list_elem_of_filter). eauto.
    + intros (s & Hs & Hp & <-). exists s. split; [done|].
      by apply list_elem_of_filter.
Qed.

(** X14: the most recent parent is the parent of a span that started after
    1000000 and no earlier than any other span with a parent; there is none
    exactly when no span with a parent started after 1000000. *)
Theorem get_otel_spans_recent_parent (spans : list Span) :
  let out := get_otel_spans (Some (Some spans)) in
  (recent_parent out = None
   ↔ ∀ s, s ∈ spans → parent s ≠ None → (start_time s ≤ 1000000)%Z)
  ∧ ∀ p, recent_parent out = Some p →
      ∃ s, s ∈ spans ∧ parent s = Some p ∧ (1000000 < start_time s)%Z
           ∧ ∀ s', s' ∈ spans → parent s' ≠ None → (start_time s' ≤ start_time s)%Z.
Proof.
  cbv zeta. unfold get_otel_spans. cbn [default recent_parent].
  destruct (loop_invariant_holds spans) as (Hfloor & Hmax & Hnone & Hsome & _).
  split.
  - split.
    + intros Hp s Hs Hparent. specialize (Hmax s Hs Hparent). rewrite Hnone in Hmax; done.
    + intros Hall. destruct (most_recent_parent _) as [p|] eqn:Hp; [|done].
      destruct (Hsome p eq_refl) as (s & Hs & Hparent & _ & Hlate).
      specialize (Hall s Hs). rewrite Hparent in Hall. specialize (Hall ltac:(done)). lia.
  - intros p Hp. destruct (Hsome p Hp) as (s & Hs & Hparent & Hstart & Hlate).
    exists s. split_and!; try done. intros s' Hs' Hparent'. rewrite Hstart.
    by apply Hmax.
Qed.

End OtelFacts.

Section LoggerFacts.
Import Obj Loggers.
Context `{Environment}.

(** X15: [detailed_debug: true] puts all three loggers at [DEBUG] whatever
    [debug] says; otherwise [debug: true] puts all three at [INFO]; the
    variable [LITELLM_LOG] is read only when both settings are [false]
    (not when one is missing), and then moves the router and proxy loggers
    only, never the package logger; in every other case the levels stay. *)
Theorem apply_settings_precedence (_settings : gmap string obj) (levels : Levels) :
  let debug := dict_get _settings "debug" in
  let detailed_debug := dict_get _settings "detailed_debug" in
  let out := apply_settings _settings levels in
  (detailed_debug = OBool true → out = set_all DEBUG)
  ∧ (debug = OBool true → detailed_debug ≠ OBool true → out = set_all INFO)
  ∧ (debug ≠ OBool true → detailed_debug ≠ OBool true →
     verbose_logger out = verbose_logger levels)
  ∧ (debug ≠ OBool true → detailed_debug ≠ OBool true →
     debug ≠ OBool false ∨ detailed_debug ≠ OBool false →
     out = levels)
  ∧ (debug = OBool false → detailed_debug = OBool false →
     out = if String.eqb (upper (default "" litellm_log)) "INFO"
           then set_router_and_proxy INFO levels
           else if String.eqb (upper (default "" litellm_log)) "DEBUG"
           then set_router_and_proxy DEBUG levels
           else levels).
Proof.
  cbv zeta. unfold apply_settings.
  assert (∀ v, is_True v = true ↔ v = OBool true) as HT
    by (intros [| [] | | | |]; cbn; split; congruence).
  assert (∀ v, is_False v = true ↔ v = OBool false) as HF
    by (intros [| [] | | | |]; cbn; split; congruence).
  destruct (is_True (dict_get _settings "debug")) eqn:Hd;
    destruct (is_True (dict_get _settings "detailed_debug")) eqn:Hdd;
    destruct (is_False (dict_get _settings "debug")) eqn:Hfd;
    destruct (is_False (dict_get _settings "detailed_debug")) eqn:Hfdd;
    rewrite ?HT, ?HF in *;
    repeat match goal with
           | Hx : ?b = true |- _ => apply HT in Hx || apply HF in Hx
           | Hx : ?b = false |- _ =>
               first [ apply (proj2 (not_true_iff_false _)) in Hx; rewrite HT in Hx
                     | apply (proj2 (not_true_iff_false _)) in Hx; rewrite HF in Hx ]
           end;
    cbn [andb]; split_and!; intros; try congruence;
    try (by repeat case_match);
    try (exfalso; intuition congruence).
Qed.

(** X16: [init_verbose_loggers] never raises and leaves the levels as they
    are when there is no [WORKER_CONFIG], when it names a file, when it does
    not decode, or when it decodes to something that is no dictionary; it
    logs a warning in the third of these cases only. *)
Theorem init_verbose_loggers_skips (levels : Levels) :
  let out := init_verbose_loggers levels in
  (worker_config = None → out = (levels, []))
  ∧ (∀ w, worker_config = Some w → isfile w = true → out = (levels, []))
  ∧ (∀ w e, worker_config = Some w → isfile w = false → json_loads w = inl e →
       out = (levels, ["Failed to init verbose loggers: " +:+ e]))
  ∧ (∀ w v, worker_config = Some w → isfile w = false → json_loads w = inr v →
       (∀ d, v ≠ ODict d) → out = (levels, []))
  ∧ (∀ w d, worker_config = Some w → isfile w = false → json_loads w = inr (ODict d) →
       out = (apply_settings d levels, []))
  ∧ (out.2 ≠ [] → out.1 = levels).
Proof.
  cbv zeta. unfold init_verbose_loggers.
  destruct worker_config as [w|] eqn:Hw;
    [|split_and!; intros; simplify_eq/=; congruence].
  destruct (isfile w) eqn:Hfile;
    [split_and!; intros; simplify_eq/=; congruence|].
  destruct (json_loads w) as [e|v] eqn:Hjson.
  - split_and!; intros; simplify_eq/=; congruence.
  - destruct v; split_and!; intros; simplify_eq/=; try congruence; naive_solver.
Qed.

End LoggerFacts.

(** ** Router types: keys, access and shared objects *)

Section CacheKeyFacts.
Import Router CacheKeys.

Lemma usage_key_eq (e : RouterCacheEnum) (id model bucket : string) :
  usage_key e id model bucket
  = Some (key_scheme cache_scope id model (window_kind e) bucket).
Proof.
  assert (Some (key_scheme cache_scope id model (window_kind e) (bucket +:+ ""))
          = Some (key_scheme cache_scope id model (window_kind e) bucket)) as <-
    by (by rewrite string_app_nil_r).
  destruct e; vm_compute; reflexivity.
Qed.

(** A text without a colon ends where the first colon stands. *)
Lemma colon_free_split (s s' t t' : string) :
  colon_free s = true → colon_free s' = true →
  s +:+ ":" +:+ t = s' +:+ ":" +:+ t' → s = s' ∧ t = t'.
Proof.
  revert s'. induction s as [|c s IH]; intros [|c' s']; simpl.
  - intros _ _ Heq. by simplify_eq/=.
  - intros _ Hc Heq. by simplify_eq/=.
  - intros Hc _ Heq. by simplify_eq/=.
  - intros [_ Hs]%andb_true_iff [_ Hs']%andb_true_iff Heq.
    injection Heq as -> Heq.
    destruct (IH s' Hs Hs' Heq) as [-> ->]. done.
Qed.

(** X17: when the router ids and model names hold no colon, the usage key
    tells the window kind, the router id, the model and the bucket apart:
    two keys are equal only if all four are.  A colon in an id or a model
    name breaks this: the key of id [x:y] and model [z] is the key of id [x]
    and model [y:z]. *)
Theorem usage_key_injective :
  (∀ e e' id id' model model' bucket bucket',
     colon_free id = true → colon_free id' = true →
     colon_free model = true → colon_free model' = true →
     usage_key e id model bucket = usage_key e' id' model' bucket' →
     e = e' ∧ id = id' ∧ model = model' ∧ bucket = bucket')
  ∧ (∀ e x y z bucket,
       usage_key e (x +:+ ":" +:+ y) z bucket = usage_key e x (y +:+ ":" +:+ z) bucket).
Proof.
  split.
  - intros e e' id id' model model' bucket bucket' Hid Hid' Hm Hm'.
    rewrite !usage_key_eq. unfold key_scheme, cache_scope. intros [= Heq].
    change ("" +:+ ?s) with s in Heq.
    destruct (colon_free_split _ _ _ _ Hid Hid' Heq) as [-> Heq1].
    destruct (colon_free_split _ _ _ _ Hm Hm' Heq1) as [-> Heq2].
    assert (colon_free (window_kind e) = true) as Hk by by destruct e.
    assert (colon_free (window_kind e') = true) as Hk' by by destruct e'.
    destruct (colon_free_split _ _ _ _ Hk Hk' Heq2) as [Hkind ->].
    split_and!; try done. by destruct e, e'.
  - intros e x y z bucket. rewrite !usage_key_eq. unfold key_scheme.
    by rewrite !string_app_assoc.
Qed.

End CacheKeyFacts.

Section AccessFacts.
Import Py Router Access.
Context `{Pydantic, Uuid4}.


End AccessFacts.


Section SharedFacts.
Import Py.
Context `{Pydantic, Uuid4}.

(** The loop on the store is the loop on the object at the address. *)
Lemma shared_copy_loop (litellm_params : gmap string value) (l : nat)
    (keys : list string) (store : Shared.Store) :
  foldl (Shared.copy_special_param litellm_params l) store keys !! l
  = (λ o, foldl (Router.copy_special_param litellm_params) o keys) <$> store !! l
  ∧ ∀ l', l' ≠ l →
      foldl (Shared.copy_special_param litellm_params l) store keys !! l' = store !! l'.
Proof.
  revert store. induction keys as [|key keys IH]; intros store; cbn [foldl].
  - split; [by destruct (store !! l) | done].
  - destruct (IH (Shared.copy_special_param litellm_params l store key)) as [-> Hother].
    split.
    + unfold Shared.copy_special_param, Router.copy_special_param. cbv zeta.
      destruct (is_None (getattr litellm_params key VNone)).
      * by destruct (store !! l).
      * rewrite lookup_alter_eq. by destruct (store !! l).
    + intros l' Hl'. rewrite Hother by done. unfold Shared.copy_special_param.
      cbv zeta.
      destruct (is_None (getattr litellm_params key VNone)); [done|].
      by rewrite lookup_alter_ne.
Qed.

(** X19: a [Deployment] built with a [ModelInfo] object holds that very
    object, and the pricing parameters that [litellm_params] sets are
    assigned on it: the caller's object changes, in these keys only, and no
    other object does.  A second deployment built with the same object
    shares it with the first, which then reads the prices of the second. *)
Theorem Deployment_init_shares_model_info (name : string)
    (litellm_params : gmap string value) (l : nat) (params : gmap string value)
    (store : Shared.Store) (draws : nat) (o : gmap string value) :
  store !! l = Some o →
  ∃ dep store',
    Shared.Deployment_init name litellm_params (Shared.ModelInfoAt l) params store draws
    = (Some (dep, store'), draws)
    ∧ Shared.model_info dep = l
    ∧ (∀ key, key ∈ Router.SPECIAL_MODEL_INFO_PARAMS →
         getattr litellm_params key VNone ≠ VNone →
         store' !! l ≫= (.!! key) = Some (getattr litellm_params key VNone))
    ∧ (∀ key, key ∉ Router.SPECIAL_MODEL_INFO_PARAMS
              ∨ getattr litellm_params key VNone = VNone →
         store' !! l ≫= (.!! key) = o !! key)
    ∧ (∀ l', l' ≠ l → store' !! l' = store !! l')
    ∧ ∀ name2 litellm_params2 params2,
        ∃ dep2 store'',
          Shared.Deployment_init name2 litellm_params2 (Shared.ModelInfoAt l) params2
            store' draws = (Some (dep2, store''), draws)
          ∧ Shared.model_info dep2 = Shared.model_info dep
          ∧ ∀ key, key ∈ Router.SPECIAL_MODEL_INFO_PARAMS →
              getattr litellm_params2 key VNone ≠ VNone →
              store'' !! Shared.model_info dep ≫= (.!! key)
              = Some (getattr litellm_params2 key VNone).
Proof.
  intros Ho. unfold Shared.Deployment_init.
  cbn [Shared.Deployment_model_info mbind option_bind].
  eexists _, _. split; [reflexivity|]. cbn [Shared.model_info].
  destruct (shared_copy_loop litellm_params l Router.SPECIAL_MODEL_INFO_PARAMS store)
    as [Hat Hother].
  rewrite Ho in Hat. cbn [fmap option_fmap option_map] in Hat.
  split_and!; try done.
  - intros key Hkey Hset.
    rewrite Hat. cbn [mbind option_bind]. by apply copy_special_set.
  - intros key Hkeep.
    rewrite Hat. cbn [mbind option_bind]. by apply copy_special_keep.
  - intros name2 litellm_params2 params2.
    eexists _, _. split; [reflexivity|]. cbn [Shared.model_info]. split; [done|].
    intros key Hkey Hset.
    destruct (shared_copy_loop litellm_params2 l Router.SPECIAL_MODEL_INFO_PARAMS
                (foldl (Shared.copy_special_param litellm_params l) store
                   Router.SPECIAL_MODEL_INFO_PARAMS)) as [Hat2 _].
    rewrite Hat in Hat2. cbn [fmap option_fmap option_map] in Hat2.
    rewrite Hat2. cbn [mbind option_bind]. by apply copy_special_set.
Qed.

(** X20: with the objects in a store the constructor succeeds exactly when
    it does on the object alone, draws as many identifiers, and the object
    its deployment holds is the [model_info] computed there.  A deployment
    built without a [ModelInfo], or from a dictionary, holds a new object:
    every object of the store stays as it was. *)
Theorem Deployment_init_store_agrees (name : string)
    (litellm_params : gmap string value) (model_info : Shared.ModelInfoArg)
    (given : Router.ModelInfoArg) (params : gmap string value)
    (store : Shared.Store) (draws : nat) :
  Shared.arg_value store model_info = Some given →
  match Shared.Deployment_init name litellm_params model_info params store draws,
        Router.Deployment_init name litellm_params given params draws with
  | (Some (dep, store'), d1), (Some dep0, d2) =>
      d1 = d2
      ∧ store' !! Shared.model_info dep = Some (Router.model_info dep0)
      ∧ Shared.model_name dep = Router.model_name dep0
      ∧ Shared.litellm_params dep = Router.litellm_params dep0
      ∧ Shared.deployment_extra dep = Router.deployment_extra dep0
      ∧ (∀ l', l' ≠ Shared.model_info dep → store' !! l' = store !! l')
      ∧ ((∀ l, model_info ≠ Shared.ModelInfoAt l) →
         store !! Shared.model_info dep = None ∧ store ⊆ store')
  | (None, d1), (None, d2) => d1 = d2
  | _, _ => False
  end.
Proof.
  intros Hgiven.
  assert (∀ o d,
            Shared.Deployment_model_info model_info store draws
            = (Some (fresh (dom store), <[fresh (dom store) := o]> store), d) →
            Router.Deployment_model_info given draws = (Some o, d) →
            (∀ l, model_info ≠ Shared.ModelInfoAt l) →
            match Shared.Deployment_init name litellm_params model_info params store draws,
                  Router.Deployment_init name litellm_params given params draws with
            | (Some (dep, store'), d1), (Some dep0, d2) =>
                d1 = d2
                ∧ store' !! Shared.model_info dep = Some (Router.model_info dep0)
                ∧ Shared.model_name dep = Router.model_name dep0
                ∧ Shared.litellm_params dep = Router.litellm_params dep0
                ∧ Shared.deployment_extra dep = Router.deployment_extra dep0
                ∧ (∀ l', l' ≠ Shared.model_info dep → store' !! l' = store !! l')
                ∧ ((∀ l, model_info ≠ Shared.ModelInfoAt l) →
                   store !! Shared.model_info dep = None ∧ store ⊆ store')
            | (None, d1), (None, d2) => d1 = d2
            | _, _ => False
            end) as Hnew.
  { intros o d Hs Hv _. unfold Shared.Deployment_init, Router.Deployment_init.
    rewrite Hs, Hv. cbn [mbind option_bind Shared.model_info Shared.model_name
      Shared.litellm_params Shared.deployment_extra Router.model_info
      Router.model_name Router.litellm_params Router.deployment_extra].
    destruct (shared_copy_loop litellm_params (fresh (dom store))
                Router.SPECIAL_MODEL_INFO_PARAMS
                (<[fresh (dom store) := o]> store)) as [Hat Hother].
    rewrite lookup_insert_eq in Hat. cbn [fmap option_fmap option_map] in Hat.
    assert (store !! fresh (dom store) = None) as Hfresh
      by (apply not_elem_of_dom, is_fresh).
    split_and!; try done.
    - intros l' Hl'. rewrite Hother by done. by rewrite lookup_insert_ne.
    - intros _. split; [done|]. apply map_subseteq_spec. intros l' o' Hl'.
      assert (l' ≠ fresh (dom store)) as Hne by (intros ->; congruence).
      rewrite Hother by done. by rewrite lookup_insert_ne. }
  destruct model_info as [|l|d]; cbn in Hgiven.
  - injection Hgiven as <-.
    destruct (Router.ModelInfo_init VNone ∅ draws) as [[o|] d1] eqn:Hinit.
    + apply (Hnew o d1); [|done|done].
      unfold Shared.Deployment_model_info. by rewrite Hinit.
    + unfold Shared.Deployment_init, Router.Deployment_init,
        Shared.Deployment_model_info, Router.Deployment_model_info.
      by rewrite Hinit.
  - destruct (store !! l) as [o|] eqn:Ho; [|done]. injection Hgiven as <-.
    unfold Shared.Deployment_init, Router.Deployment_init.
    cbn [Shared.Deployment_model_info Router.Deployment_model_info mbind option_bind
      Shared.model_info Shared.model_name Shared.litellm_params
      Shared.deployment_extra Router.model_info Router.model_name
      Router.litellm_params Router.deployment_extra].
    destruct (shared_copy_loop litellm_params l Router.SPECIAL_MODEL_INFO_PARAMS store)
      as [Hat Hother].
    rewrite Ho in Hat. split_and!; try done. intros Hno. by destruct (Hno l).
  - injection Hgiven as <-.
    destruct (Router.ModelInfo_of_dict d draws) as [[o|] d1] eqn:Hinit.
    + apply (Hnew o d1); [|done|done].
      unfold Shared.Deployment_model_info. by rewrite Hinit.
    + unfold Shared.Deployment_init, Router.Deployment_init,
        Shared.Deployment_model_info, Router.Deployment_model_info.
      by rewrite Hinit.
Qed.

End SharedFacts.

(** A run of X19's theorem: two deployments built with the one object of a
    store. *)
Lemma Deployment_init_shares_model_info_run :
  ∃ dep store',
    Shared.Deployment_init (H := Py.strict_validate) (H0 := Py.counting_uuid4)
      "a" (Examples4.priced 1 2) (Shared.ModelInfoAt 0) ∅ Examples4.one_info 0
    = (Some (dep, store'), 0%nat)
    ∧ store' !! 0%nat ≫= (.!! "input_cost_per_token") = Some (Py.VInt 1)
    ∧ ∃ dep2 store'',
        Shared.Deployment_init (H := Py.strict_validate) (H0 := Py.counting_uuid4)
          "b" (Examples4.priced 5 6) (Shared.ModelInfoAt 0) ∅ store' 0
        = (Some (dep2, store''), 0%nat)
        ∧ store'' !! Shared.model_info dep ≫= (.!! "input_cost_per_token")
          = Some (Py.VInt 5).
Proof.
  destruct (Deployment_init_shares_model_info (H := Py.strict_validate)
              (H0 := Py.counting_uuid4) "a" (Examples4.priced 1 2) 0 ∅
              Examples4.one_info 0 {["id" := Py.VStr "m1"]} eq_refl)
    as (dep & store' & Hinit & Hl & Hset & _ & _ & Hsecond).
  exists dep, store'. split_and!; [exact Hinit| |].
  - rewrite (Hset "input_cost_per_token"); [reflexivity| |done].
    apply (bool_decide_unpack _). by vm_compute.
  - destruct (Hsecond "b" (Examples4.priced 5 6) ∅) as (dep2 & store'' & Hinit2 & _ & Hset2).
    exists dep2, store''. split; [exact Hinit2|].
    rewrite (Hset2 "input_cost_per_token"); [reflexivity| |done].
    apply (bool_decide_unpack _). by vm_compute.
Defined.

(** A run of X20's theorem, on the object of a store. *)
Lemma Deployment_init_store_agrees_run :
  match Shared.Deployment_init (H := Py.strict_validate) (H0 := Py.counting_uuid4)
          "a" (Examples4.priced 1 2) (Shared.ModelInfoAt 0) ∅ Examples4.one_info 0,
        Router.Deployment_init (H := Py.strict_validate) (H0 := Py.counting_uuid4)
          "a" (Examples4.priced 1 2) (Router.ModelInfoObj {["id" := Py.VStr "m1"]}) ∅ 0
  with
  | (Some (dep, store'), _), (Some dep0, _) =>
      store' !! Shared.model_info dep = Some (Router.model_info dep0)
  | _, _ => False
  end.
Proof.
  pose proof (Deployment_init_store_agrees (H := Py.strict_validate)
                (H0 := Py.counting_uuid4) "a" (Examples4.priced 1 2)
                (Shared.ModelInfoAt 0) (Router.ModelInfoObj {["id" := Py.VStr "m1"]})
                ∅ Examples4.one_info 0 eq_refl) as Hagree.
  unfold Shared.Deployment_init, Router.Deployment_init in *.
  cbn [Shared.Deployment_model_info Router.Deployment_model_info mbind option_bind]
    in *.
  by destruct Hagree as (_ & Hobj & _).
Defined.

(** ** ModelGroupInfo: the defaulting loop *)

Section ModelGroupInfoLoop.
Import Py Router.

(** X21: the loop of [ModelGroupInfo.__init__] writes only the capability
    flags that are [None] or missing: every other keyword, an optional field
    given as [None] included, and every flag given with another value, a
    boolean or not, reaches the validation as it was given.  After the loop
    all six flags are present and none is [None]; running the loop again
    changes nothing, and data that set every flag pass unchanged. *)
Theorem ModelGroupInfo_data_frame (data : gmap string value) :
  (∀ k, k ∉ ModelGroupInfo_bool_fields →
     ModelGroupInfo_data data !! k = data !! k)
  ∧ (∀ f v, data !! f = Some v → v ≠ VNone →
       ModelGroupInfo_data data !! f = Some v)
  ∧ (∀ f, f ∈ ModelGroupInfo_bool_fields →
       ∃ v, ModelGroupInfo_data data !! f = Some v ∧ v ≠ VNone)
  ∧ ModelGroupInfo_data (ModelGroupInfo_data data) = ModelGroupInfo_data data
  ∧ ((∀ f, f ∈ ModelGroupInfo_bool_fields → dict_get data f ≠ VNone) →
     ModelGroupInfo_data data = data).
Proof.
  split_and!.
  - intros k Hk. rewrite ModelGroupInfo_data_lookup.
    by rewrite bool_decide_eq_false_2.
  - intros f v Hf Hv. rewrite ModelGroupInfo_data_lookup. unfold dict_get.
    rewrite Hf. cbn [default id]. apply is_None_false in Hv. rewrite Hv.
    by rewrite andb_false_r.
  - intros f Hf. rewrite ModelGroupInfo_data_lookup.
    rewrite bool_decide_eq_true_2 by done. cbn [andb].
    destruct (is_None (dict_get data f)) eqn:Hnone; [by eexists|].
    apply is_None_false in Hnone. unfold dict_get in Hnone.
    destruct (data !! f) as [v|]; [|done]. exists v. split; [done|].
    intros ->. done.
  - apply map_eq. intros k. rewrite (ModelGroupInfo_data_lookup (ModelGroupInfo_data data)).
    destruct (bool_decide (k ∈ ModelGroupInfo_bool_fields)) eqn:Hk; [|done].
    cbn [andb]. unfold dict_get at 1. rewrite ModelGroupInfo_data_lookup, Hk.
    cbn [andb]. destruct (is_None (dict_get data k)) eqn:Hnone; [done|].
    unfold dict_get in Hnone. by rewrite Hnone.
  - intros Hset. apply map_eq. intros k. rewrite ModelGroupInfo_data_lookup.
    destruct (bool_decide (k ∈ ModelGroupInfo_bool_fields)) eqn:Hk; [|done].
    apply bool_decide_eq_true_1 in Hk. apply Hset, is_None_false in Hk.
    by rewrite Hk.
Qed.

End ModelGroupInfoLoop.

(** ** The in-memory caches *)

Section MemCacheFacts.
Import MemCache.
Context {V T : Type}.

(** X22: the counting endpoint and the listing endpoint agree: the count of
    a cache is the number of entries listed for it plus the number of expiry
    times listed for it, so an entry with an expiry time counts twice.
    Without a router the router cache is listed empty and counted zero. *)
Theorem memory_usage_counts_items (p : Proxy V T) :
  let counts := memory_usage_in_mem_cache p in
  let items := memory_usage_in_mem_cache_items p in
  num_items_in_user_api_key_cache counts
  = size (user_api_key_cache_items items) + size (user_api_key_ttl items)
  ∧ num_items_in_llm_router_cache counts
    = size (llm_router_cache items) + size (llm_router_ttl items)
  ∧ num_items_in_proxy_logging_obj_cache counts
    = size (proxy_logging_obj_cache items) + size (proxy_logging_obj_ttl items)
  ∧ (llm_router p = None →
     num_items_in_llm_router_cache counts = 0
     ∧ llm_router_cache items = ∅ ∧ llm_router_ttl items = ∅)
  ∧ (∀ c, llm_router p = Some c →
       dom (ttl_dict c) = dom (cache_dict c) →
       num_items_in_llm_router_cache counts = 2 * size (cache_dict c)).
Proof.
  cbv zeta. unfold memory_usage_in_mem_cache, memory_usage_in_mem_cache_items.
  destruct (llm_router p) as [c|]; cbn; split_and!; try done.
  intros ? [= <-] Hdom.
  rewrite <- (size_dom (D := gset string) (ttl_dict c)), Hdom, size_dom. lia.
Qed.

End MemCacheFacts.

(** ** Fireworks AI: the messages of a request *)

Section MessageFacts.
Import Obj FireworksConfig FireworksMessages.
Context `{PyFormat, PromptTemplates}.





End MessageFacts.


(** ** Task statistics by name *)

Section TaskNames.
Import Debug.

(** The tasks of [tasks] whose coroutine is named [n]. *)
Local Abbreviation named n tasks :=
  (length (filter (λ t, coroutine_name (get_coro t) = n) tasks)).

Lemma count_tasks_lookup (active_tasks : list Task) :
  ∀ (idx : nat) (counter : gmap string nat) (n : string),
    count_tasks idx active_tasks counter !! n
    = match named n (take (MAX_TASKS_TO_CHECK - idx) active_tasks) with
      | O => counter !! n
      | S c => Some (default 0 (counter !! n) + S c)%nat
      end.
Proof.
  induction active_tasks as [|task rest IH]; intros idx counter n; cbn [count_tasks].
  - by rewrite take_nil.
  - destruct (Nat.leb_spec MAX_TASKS_TO_CHECK idx) as [Hle|Hlt].
    + by replace (MAX_TASKS_TO_CHECK - idx)%nat with 0%nat by lia.
    + replace (MAX_TASKS_TO_CHECK - idx)%nat with (S (MAX_TASKS_TO_CHECK - S idx)) by lia.
      rewrite IH. cbn [take]. rewrite filter_cons. unfold Counter_incr.
      destruct (decide (coroutine_name (get_coro task) = n)) as [->|Hne].
      * rewrite lookup_insert_eq. cbn [length default].
        unfold id. destruct (named _ _); f_equal; lia.
      * by rewrite lookup_insert_ne.
Qed.

(** X24: [by_name] lists, for each coroutine name, the number of tasks with
    that name among the first 5000 tasks that are not done; a name that none
    of these tasks has is not listed, so no listed count is zero, and a task
    that is done or comes after the first 5000 adds to no count. *)
Theorem active_tasks_by_name (all_tasks : list Task) (n : string) :
  let active_tasks := filter (λ t, done t = false) all_tasks in
  let counted := take 5000 active_tasks in
  let c := length (filter (λ t, coroutine_name (get_coro t) = n) counted) in
  by_name (get_active_tasks_stats all_tasks) !! n
  = (if decide (c = 0%nat) then None else Some c)
  ∧ by_name (get_active_tasks_stats all_tasks) !! n ≠ Some 0%nat
  ∧ (is_Some (by_name (get_active_tasks_stats all_tasks) !! n)
     ↔ ∃ t, t ∈ counted ∧ coroutine_name (get_coro t) = n)
  ∧ (c ≤ total_active_tasks (get_active_tasks_stats all_tasks))%nat.
Proof.
  cbv zeta. unfold get_active_tasks_stats. cbn [by_name total_active_tasks].
  rewrite count_tasks_lookup, lookup_empty, Nat.sub_0_r.
  change MAX_TASKS_TO_CHECK with 5000%nat. cbn [default].
  set (counted := take 5000 (filter (λ t, done t = false) all_tasks)).
  split_and!.
  - by destruct (named n counted).
  - by destruct (named n counted).
  - split.
    + intros Hsome.
      destruct (filter (λ t, coroutine_name (get_coro t) = n) counted) as [|t ts] eqn:Hts.
      { cbn in Hsome. by destruct Hsome. }
      assert (t ∈ filter (λ t, coroutine_name (get_coro t) = n) counted) as Ht
        by (rewrite Hts; apply list_elem_of_here).
      apply list_elem_of_filter in Ht as [Hname Ht]. eauto.
    + intros (t & Ht & Hname).
      assert (t ∈ filter (λ t, coroutine_name (get_coro t) = n) counted) as Hin
        by by apply list_elem_of_filter.
      destruct (filter _ counted) as [|t' ts]; [by apply elem_of_nil in Hin|].
      cbn [length]. by eexists.
  - etrans; [apply length_filter|]. subst counted. rewrite length_take. lia.
Qed.

End TaskNames.
